(** * Project Chimera: client services and session core

    A shallow embedding of the TypeScript client of the repository (the
    two API clients, the query history service, the sign-in form and the
    main view's sign-in state and event stream) together with the session
    core described by the specification (conversation store, preference
    aggregator, query orchestrator), and the properties proved about
    them.

    JavaScript strings are modelled by [string]: sequences of code units
    in the Latin-1 range.  Promises are modelled by their outcome
    ([Result]); callback invocations are recorded in a trace, and a
    callback may itself throw.  Logging to the console and delays are
    left out. *)

From Stdlib Require Import String Ascii List Arith Lia Bool.
From stdpp Require Import base strings gmap list.
Import ListNotations.

(** ** JavaScript runtime primitives used by the client code *)

Module JS.

(** A thrown JavaScript error, identified by its message. *)
Definition Error := string.

(** Outcome of an awaited promise or of a call that may throw. *)
Inductive Result (A : Type) : Type :=
| Ok (value : A)
| Throw (error : Error).
Arguments Ok {A} value.
Arguments Throw {A} error.

Definition space : ascii := " "%char.
Definition dot : ascii := "."%char.
Definition newline : ascii := "010"%char.

(** WhiteSpace and LineTerminator code units below 256: TAB, LF, VT,
    FF, CR, SP and NBSP. *)
Definition is_whitespace (c : ascii) : bool :=
  let n := nat_of_ascii c in
  (Nat.leb 9 n && Nat.leb n 13) || Nat.eqb n 32 || Nat.eqb n 160.

(** [s.trimStart()] *)
Fixpoint trimStart (s : string) : string :=
  match s with
  | EmptyString => EmptyString
  | String c rest => if is_whitespace c then trimStart rest else s
  end.

(** [s.trimEnd()] *)
Fixpoint trimEnd (s : string) : string :=
  match s with
  | EmptyString => EmptyString
  | String c rest =>
      match trimEnd rest with
      | EmptyString => if is_whitespace c then EmptyString else String c EmptyString
      | kept => String c kept
      end
  end.

(** [s.trim()] *)
Definition trim (s : string) : string := trimEnd (trimStart s).

(** [s.split(' ')]: the pieces between single spaces; the empty string
    splits into one empty piece. *)
Fixpoint split_space (s : string) : list string :=
  match s with
  | EmptyString => [EmptyString]
  | String c rest =>
      if Ascii.eqb c space then EmptyString :: split_space rest
      else match split_space rest with
           | word :: words => String c word :: words
           | [] => [String c EmptyString]
           end
  end.

(** [s.substring(0, n)] *)
Fixpoint substring0 (n : nat) (s : string) : string :=
  match n, s with
  | S m, String c rest => String c (substring0 m rest)
  | _, _ => EmptyString
  end.

(** Code-unit case mapping in the Latin-1 range. *)
Definition lower_char (c : ascii) : ascii :=
  let n := nat_of_ascii c in
  if (Nat.leb 65 n && Nat.leb n 90)
     || (Nat.leb 192 n && Nat.leb n 222 && negb (Nat.eqb n 215))
  then ascii_of_nat (n + 32) else c.

(** [s.toLowerCase()] *)
Fixpoint toLowerCase (s : string) : string :=
  match s with
  | EmptyString => EmptyString
  | String c rest => String (lower_char c) (toLowerCase rest)
  end.

(** [s.startsWith(p)] *)
Fixpoint startsWith (s p : string) : bool :=
  match p, s with
  | EmptyString, _ => true
  | String a p', String b s' => Ascii.eqb a b && startsWith s' p'
  | String _ _, EmptyString => false
  end.

(** [s.includes(p)] *)
Fixpoint includes (s p : string) : bool :=
  startsWith s p ||
  match s with
  | EmptyString => false
  | String _ rest => includes rest p
  end.

(** Truthiness of a string value: only the empty string is falsy. *)
Definition truthy (s : string) : bool :=
  match s with EmptyString => false | String _ _ => true end.

(** [a || b] on strings. *)
Definition or_else (a b : string) : string := if truthy a then a else b.

(** The string starts, or ends, with a whitespace code unit. *)
Definition first_is_whitespace (s : string) : bool :=
  match s with
  | EmptyString => false
  | String c _ => is_whitespace c
  end.

Fixpoint last_is_whitespace (s : string) : bool :=
  match s with
  | EmptyString => false
  | String c EmptyString => is_whitespace c
  | String _ rest => last_is_whitespace rest
  end.

Definition no_outer_whitespace (s : string) : bool :=
  negb (first_is_whitespace s) && negb (last_is_whitespace s).

(** The number of space code units of a string. *)
Fixpoint count_spaces (s : string) : nat :=
  match s with
  | EmptyString => 0
  | String c rest => (if Ascii.eqb c space then 1 else 0) + count_spaces rest
  end.

(** Every code unit of the string is whitespace. *)
Fixpoint all_whitespace (s : string) : bool :=
  match s with
  | EmptyString => true
  | String c rest => is_whitespace c && all_whitespace rest
  end.

End JS.

Import JS.

(** ** [APIClient]: the agent-system client *)

Module APIClient.

(** [Message], [QueryRequest] and [AgentResponse] of [types/agents.ts]
    (the fields the client reads or forwards). *)
Record Message := {
  role : string;
  content : string;
  timestamp : string
}.

Record QueryRequest := {
  query_text : string;
  persona : option string;
  conversationHistory : option (list Message)
}.

Record AgentResponse := {
  answer : string;
  confidence : option string;
  citations : option (list string)
}.

(** The backend behind the axios instance: what [POST /query] answers,
    as a value ([response.data]) or as a rejection. *)
Record Backend := {
  post_query : QueryRequest -> Result AgentResponse
}.

(** Callback invocations made by [streamQuery]. *)
Inductive Call :=
| OnChunk (chunk : string)
| OnComplete (response : AgentResponse)
| OnError (error : Error).

(** The caller's callbacks: given the invocations made so far and the
    present one, a callback returns normally ([None]) or throws. *)
Definition Handlers := list Call -> Call -> option Error.

(** What a call of an async method leaves behind: the callback trace
    and whether the returned promise was rejected. *)
Record Run := {
  calls : list Call;
  rejected : option Error
}.

(** [query]: the response data, or the error rethrown. *)
Definition query (b : Backend) (request : QueryRequest) : Result AgentResponse :=
  match post_query b request with
  | Ok data => Ok data
  | Throw error => Throw error
  end.

(** The [for (const word of words)] loop of [streamQuery]; it stops at
    the first callback that throws. *)
Fixpoint stream_words (h : Handlers) (words : list string)
         (accumulated : string) (trace : list Call) : list Call * option Error :=
  match words with
  | [] => (trace, None)
  | word :: rest =>
      let accumulated := accumulated +:+ word +:+ " " in
      let call := OnChunk (trim accumulated) in
      match h trace call with
      | Some e => (trace ++ [call], Some e)
      | None => stream_words h rest accumulated (trace ++ [call])
      end
  end.

(** The value of [accumulated] once the loop has gone through all
    the words. *)
Definition accumulate (words : list string) (accumulated : string) : string :=
  fold_left (fun a word => a +:+ word +:+ " ") words accumulated.

(** The [catch] block of [streamQuery]. *)
Definition catch_onError (h : Handlers) (trace : list Call) (error : Error) : Run :=
  let call := OnError error in
  {| calls := trace ++ [call]; rejected := h trace call |}.

Definition streamQuery (b : Backend) (request : QueryRequest) (h : Handlers) : Run :=
  match query b request with
  | Throw error => catch_onError h [] error
  | Ok response =>
      let words := split_space (answer response) in
      match stream_words h words "" [] with
      | (trace, Some error) => catch_onError h trace error
      | (trace, None) =>
          let call := OnComplete response in
          match h trace call with
          | Some error => catch_onError h (trace ++ [call]) error
          | None => {| calls := trace ++ [call]; rejected := None |}
          end
      end
  end.

(** Progress and terminal invocations, and the shape of a session's
    trace: any number of progress invocations, then one terminal
    invocation, then nothing. *)
Definition is_progress (c : Call) : bool :=
  match c with
  | OnChunk _ => true
  | _ => false
  end.

Definition is_terminal (c : Call) : bool := negb (is_progress c).

Definition one_terminal_last (trace : list Call) : bool :=
  match rev trace with
  | [] => false
  | final :: before => is_terminal final && forallb is_progress before
  end.

End APIClient.

(** ** [EnhancedAPIClient]: structured responses and streaming logs *)

Module EnhancedAPIClient.

(** The declarations of [types/api.ts]. *)
Record Publication := {
  title : string;
  url : string;
  year : option string;
  authors : option string;
  subjects : option (list string);
  stressors : option (list string)
}.

Record Brief := {
  consensus : string;
  contradiction : string;
  gap : string
}.

Record QueryRequest := {
  question : string;
  persona : string;
  conversation_history : option (list (string * string))
}.

(** The [type] member of [StreamEvent]: a union of four literals. *)
Inductive StreamEventType := TLog | TThought | TTool | TResult.

Definition type_literal (t : StreamEventType) : string :=
  match t with
  | TLog => "log"
  | TThought => "thought"
  | TTool => "tool"
  | TResult => "result"
  end.

Record StreamEvent := {
  event_type : StreamEventType;
  event_content : string;
  event_timestamp : string
}.

(** [response.data] of [POST /query] as the runtime has it: any field
    may be absent.  [EnhancedQueryResponse] is this object seen
    through an unchecked cast. *)
Record ResponseData := {
  answer : option string;
  publications : option (list Publication);
  intermediate_steps : option (list string);  (* each step by its JSON text *)
  brief : option Brief;
  evidence : option (list Publication);
  highlighted_concepts : option (list string);
  follow_up_questions : option (list string);
  agent_logs : option (list string)
}.

(** *** Legacy transform *)

(** Canonicalisation of a code unit under the [i] flag. *)
Definition canonicalize (c : ascii) : ascii :=
  let n := nat_of_ascii c in
  if (Nat.leb 97 n && Nat.leb n 122)
     || (Nat.leb 224 n && Nat.leb n 254 && negb (Nat.eqb n 247))
  then ascii_of_nat (n - 32) else c.

(** The literal [keyword] matched case-insensitively at the head of
    [s]: the matched text and what follows it. *)
Fixpoint match_keyword (keyword s : string) : option (string * string) :=
  match keyword, s with
  | EmptyString, _ => Some (EmptyString, s)
  | String k keyword', String c s' =>
      if Ascii.eqb (canonicalize k) (canonicalize c) then
        match match_keyword keyword' s' with
        | Some (matched, rest) => Some (String c matched, rest)
        | None => None
        end
      else None
  | String _ _, EmptyString => None
  end.

(** [[^.]*[.]]: everything up to and including the first full stop. *)
Fixpoint match_to_dot (s : string) : option (string * string) :=
  match s with
  | EmptyString => None
  | String c s' =>
      if Ascii.eqb c dot then Some (String c EmptyString, s')
      else match match_to_dot s' with
           | Some (matched, rest) => Some (String c matched, rest)
           | None => None
           end
  end.

(** [[^]*?(?=\n\n|$)]: the shortest text ending before a blank line
    or at the end of the input. *)
Fixpoint match_to_break (s : string) : string :=
  match s with
  | EmptyString => EmptyString
  | String c s' =>
      match s with
      | String a (String b _) =>
          if Ascii.eqb a newline && Ascii.eqb b newline then EmptyString
          else String c (match_to_break s')
      | _ => String c (match_to_break s')
      end
  end.

(** One attempt of the whole pattern at the head of [s]. *)
Definition match_here (keyword s : string) : option string :=
  match match_keyword keyword s with
  | Some (m1, r1) =>
      match match_to_dot r1 with
      | Some (m2, r2) => Some (m1 +:+ m2 +:+ match_to_break r2)
      | None => None
      end
  | None => None
  end.

(** A keyword that stands for itself when it is put into a pattern:
    letters, digits and spaces only, no pattern metacharacter.  The six
    keywords the client passes are of this kind. *)
Definition plain_char (c : ascii) : bool :=
  let n := nat_of_ascii c in
  (Nat.leb 48 n && Nat.leb n 57) || (Nat.leb 65 n && Nat.leb n 90)
  || (Nat.leb 97 n && Nat.leb n 122) || Nat.eqb n 32.

Fixpoint plain_keyword (keyword : string) : bool :=
  match keyword with
  | EmptyString => true
  | String c rest => plain_char c && plain_keyword rest
  end.

(** [extractSection]: [text.match(regex)], the leftmost match, for a
    plain keyword.  The source builds the pattern from the keyword, so
    for a keyword with pattern metacharacters the pattern means
    something else than this literal comparison; the private method is
    only ever called with the six plain keywords of
    [transformLegacyResponse]. *)
Fixpoint extractSection (text keyword : string) : option string :=
  match match_here keyword text with
  | Some found => Some found
  | None =>
      match text with
      | EmptyString => None
      | String _ rest => extractSection rest keyword
      end
  end.

Definition knownConcepts : list string :=
  [ "microgravity"; "spaceflight"; "radiation"; "photosynthesis";
    "cardiovascular"; "bone density"; "muscle atrophy"; "immune system";
    "circadian rhythm"; "oxidative stress"; "gene expression" ].

(** [extractConcepts] *)
Definition extractConcepts (text : string) : list string :=
  firstn 5
    (List.filter (fun concept => includes (toLowerCase text) (toLowerCase concept))
                 knownConcepts).

(** [a || b] where [a] is a string or [null]. *)
Definition or_section (a b : option string) : option string :=
  match a with
  | Some s => if truthy s then a else b
  | None => b
  end.

Definition or_text (a : option string) (b : string) : string :=
  match a with
  | Some s => or_else s b
  | None => b
  end.

Definition default_contradiction : string :=
  "No significant contradictions identified in the literature.".
Definition default_gap : string :=
  "Additional research may be needed to fully address this question.".
Definition fixed_follow_ups : list string :=
  [ "Can you provide more details about the methodology?";
    "What are the implications for future missions?";
    "Are there any ongoing studies on this topic?" ].

Definition transformLegacyResponse (legacyData : ResponseData) : ResponseData :=
  let answer := or_text (answer legacyData) "" in
  let consensus :=
    or_text (or_section (extractSection answer "consensus")
                        (extractSection answer "findings"))
            (substring0 300 answer) in
  let contradiction :=
    or_text (or_section (extractSection answer "contradiction")
                        (extractSection answer "conflicting"))
            default_contradiction in
  let gap :=
    or_text (or_section (extractSection answer "gap")
                        (extractSection answer "future research"))
            default_gap in
  let evidence := default [] (publications legacyData) in
  let highlighted_concepts := extractConcepts answer in
  {| answer := None; publications := None; intermediate_steps := None;
     brief := Some {| consensus := consensus;
                      contradiction := contradiction;
                      gap := gap |};
     evidence := Some evidence;
     highlighted_concepts := Some highlighted_concepts;
     follow_up_questions := Some fixed_follow_ups;
     agent_logs := Some (default [] (intermediate_steps legacyData)) |}.

(** *** The backend and the browser as seen by the client *)

(** The parsed [data] of a server-sent message. *)
Inductive Payload :=
| Text (s : string)
| Response (r : ResponseData)
| Absent.

Record StreamData := {
  type : string;
  content : Payload
}.

(** What an [EventSource] dispatches: a message, whose data parses to
    an object or not, or an error. *)
Inductive SourceEvent :=
| MessageEvent (data : option StreamData)
| ErrorEvent.

Record Backend := {
  get_health : Result bool;   (* [data.streaming_supported === true] *)
  post_query : QueryRequest -> Result ResponseData;
  open_stream : QueryRequest -> Result (list SourceEvent);
  clock : nat -> string       (* successive [toLocaleTimeString()] readings *)
}.

Inductive Call :=
| OnLog (log : Payload)
| OnComplete (result : Payload).

Definition Handlers := list Call -> Call -> option Error.

Record Run := {
  calls : list Call;
  rejected : option Error
}.

(** [query] *)
Definition query (b : Backend) (request : QueryRequest) : Result ResponseData :=
  match post_query b request with
  | Ok data =>
      if truthy (or_text (answer data) "") && negb (bool_decide (is_Some (brief data)))
      then Ok (transformLegacyResponse data)
      else Ok data
  | Throw error => Throw error
  end.

(** [checkStreamingSupport] *)
Definition checkStreamingSupport (b : Backend) : bool :=
  match get_health b with
  | Ok supported => supported
  | Throw _ => false
  end.

Definition simulatedLogs (b : Backend) : list string :=
  [ "[" +:+ clock b 0 +:+ "] Deconstructing user goal...";
    "[" +:+ clock b 1 +:+ "] Analyzing question for key concepts...";
    "[" +:+ clock b 2 +:+ "] Querying knowledge graph for relevant publications...";
    "[" +:+ clock b 3 +:+ "] Retrieved publications from database";
    "[" +:+ clock b 4 +:+ "] Analyzing consensus patterns...";
    "[" +:+ clock b 5 +:+ "] Identifying contradictory findings...";
    "[" +:+ clock b 6 +:+ "] Detecting knowledge gaps...";
    "[" +:+ clock b 7 +:+ "] Synthesizing final brief..." ].

(** The log loop of [simulateStreaming]; a throwing [onLog] ends it. *)
Fixpoint stream_logs (h : Handlers) (logs : list string) (trace : list Call)
  : list Call * option Error :=
  match logs with
  | [] => (trace, None)
  | log :: rest =>
      let call := OnLog (Text log) in
      match h trace call with
      | Some e => (trace ++ [call], Some e)
      | None => stream_logs h rest (trace ++ [call])
      end
  end.

(** [simulateStreaming]: no [try], so any failure rejects the promise. *)
Definition simulateStreaming (b : Backend) (request : QueryRequest) (h : Handlers) : Run :=
  match stream_logs h (simulatedLogs b) [] with
  | (trace, Some error) => {| calls := trace; rejected := Some error |}
  | (trace, None) =>
      match query b request with
      | Throw error => {| calls := trace; rejected := Some error |}
      | Ok result =>
          let call := OnComplete (Response result) in
          {| calls := trace ++ [call]; rejected := h trace call |}
      end
  end.

(** [this.query(request).then(onComplete)] *)
Definition query_then_onComplete (b : Backend) (request : QueryRequest)
           (trace : list Call) : list Call :=
  match query b request with
  | Ok result => trace ++ [OnComplete (Response result)]
  | Throw _ => trace
  end.

(** [eventSource.onmessage]: the trace after the handler ran and
    whether it closed the source. *)
Definition onmessage (h : Handlers) (trace : list Call) (data : option StreamData)
  : list Call * bool :=
  match data with
  | None => (trace, false)
  | Some d =>
      if String.eqb (type d) "log" then (trace ++ [OnLog (content d)], false)
      else if String.eqb (type d) "result" then
        let call := OnComplete (content d) in
        (trace ++ [call], bool_decide (h trace call = None))
      else (trace, false)
  end.

(** Delivery of the source's events until it is closed. *)
Fixpoint dispatch (b : Backend) (request : QueryRequest) (h : Handlers)
         (events : list SourceEvent) (trace : list Call) : list Call :=
  match events with
  | [] => trace
  | MessageEvent data :: rest =>
      let (trace', closed) := onmessage h trace data in
      if closed then trace' else dispatch b request h rest trace'
  | ErrorEvent :: _ => query_then_onComplete b request trace
  end.

(** [queryWithStreaming]: the callback trace it gives rise to. *)
Definition queryWithStreaming (b : Backend) (request : QueryRequest) (h : Handlers)
  : list Call :=
  if checkStreamingSupport b then
    match open_stream b request with
    | Ok events => dispatch b request h events []
    | Throw _ => query_then_onComplete b request []
    end
  else calls (simulateStreaming b request h).

(** Progress and terminal invocations, and the shapes of a trace. *)
Definition is_progress (c : Call) : bool :=
  match c with
  | OnLog _ => true
  | OnComplete _ => false
  end.

Definition is_terminal (c : Call) : bool := negb (is_progress c).

Definition one_terminal_last (trace : list Call) : bool :=
  match rev trace with
  | [] => false
  | final :: before => is_terminal final && forallb is_progress before
  end.

(** Only the last invocation, if any, may be terminal. *)
Definition terminal_only_last (trace : list Call) : bool :=
  match rev trace with
  | [] => true
  | _ :: before => forallb is_progress before
  end.

(** The results handed to [onComplete], in order. *)
Fixpoint completions (trace : list Call) : list Payload :=
  match trace with
  | [] => []
  | OnComplete result :: rest => result :: completions rest
  | OnLog _ :: rest => completions rest
  end.

(** A message of type ["result"]; the error event. *)
Definition is_result_message (e : SourceEvent) : bool :=
  match e with
  | MessageEvent (Some d) => String.eqb (type d) "result"
  | _ => false
  end.

Definition is_error_event (e : SourceEvent) : bool :=
  match e with
  | ErrorEvent => true
  | MessageEvent _ => false
  end.

(** The [onLog] invocations that a run of messages gives rise to. *)
Fixpoint log_calls (events : list SourceEvent) : list Call :=
  match events with
  | [] => []
  | MessageEvent (Some d) :: rest =>
      if String.eqb (type d) "log" then OnLog (content d) :: log_calls rest
      else log_calls rest
  | _ :: rest => log_calls rest
  end.

(** The source reports an error before it has delivered a result. *)
Fixpoint errors_before_result (events : list SourceEvent) : bool :=
  match events with
  | [] => false
  | ErrorEvent :: _ => true
  | e :: rest => negb (is_result_message e) && errors_before_result rest
  end.

(** The streaming transport is unavailable: the backend does not
    announce it, or the event source cannot be opened, or it errors
    before a result. *)
Definition streaming_unavailable (b : Backend) (request : QueryRequest) : bool :=
  negb (checkStreamingSupport b)
  || match open_stream b request with
     | Throw _ => true
     | Ok events => errors_before_result events
     end.

(** The response carries a brief whose three fields are non-empty. *)
Definition brief_complete (r : ResponseData) : bool :=
  match brief r with
  | Some br => truthy (consensus br) && truthy (contradiction br) && truthy (gap br)
  | None => false
  end.

End EnhancedAPIClient.

(** ** [queryHistoryService]: per-session history in [localStorage] *)

Module QueryHistory.

Record QueryHistoryItem := {
  id : option string;
  session_id : string;
  query : string;
  persona : string;
  timestamp : string;
  answer : option string
}.

Definition HISTORY_KEY : string := "nasa_query_history".

(** A text held by [localStorage], up to what [JSON.parse] makes of
    it: [JSON.stringify] of an item array is read back as that array. *)
Inductive StoredText :=
| Serialized (items : list QueryHistoryItem)
| OtherJson      (* parses, but not to an array *)
| Malformed      (* [JSON.parse] throws *)
| Blank.         (* the empty string *)

(** [localStorage]: its entries, and which writes it takes ([setItem]
    throws when the quota is exceeded). *)
Record Storage := {
  cells : gmap string StoredText;
  accepts : gmap string StoredText -> string -> StoredText -> bool
}.

Definition getItem (ls : Storage) (key : string) : option StoredText :=
  cells ls !! key.

Definition setItem (ls : Storage) (key : string) (value : StoredText) : Result Storage :=
  if accepts ls (cells ls) key value
  then Ok {| cells := <[key := value]> (cells ls); accepts := accepts ls |}
  else Throw "QuotaExceededError".

(** What [getLocalHistory] hands back: an array, or whatever else the
    stored JSON denoted. *)
Inductive HistoryValue :=
| Items (items : list QueryHistoryItem)
| NotArray.

Definition history_key (sessionId : string) : string :=
  HISTORY_KEY +:+ "_" +:+ sessionId.

Definition getLocalHistory (ls : Storage) (sessionId : string) : HistoryValue :=
  match getItem ls (history_key sessionId) with
  | None => Items []
  | Some Blank => Items []
  | Some (Serialized items) => Items items
  | Some OtherJson => NotArray
  | Some Malformed => Items []
  end.

Definition getSessionHistory (ls : Storage) (sessionId : string) : HistoryValue :=
  getLocalHistory ls sessionId.

(** [saveQuery]: every failure inside is caught and logged. *)
Definition saveQuery (ls : Storage) (item : QueryHistoryItem) : Storage :=
  match getLocalHistory ls (session_id item) with
  | Items history =>
      let history := item :: history in
      let limitedHistory := firstn 20 history in
      match setItem ls (history_key (session_id item)) (Serialized limitedHistory) with
      | Ok ls' => ls'
      | Throw _ => ls
      end
  | NotArray => ls
  end.

(** A sequence of [saveQuery] calls. *)
Definition saveAll (ls : Storage) (items : list QueryHistoryItem) : Storage :=
  fold_left saveQuery items ls.

End QueryHistory.

(** ** [Login]: the sign-in form *)

Module Login.

Definition API_URL : string := "http://localhost:8000".

Record State := {
  isLogin : bool;
  email : string;
  password : string;
  error : string;
  loading : bool
}.

(** The body of an HTTP response as [response.json()] yields it. *)
Inductive Body :=
| Json (detail : option string) (access_token : string)
| NotJson (message : string).

(** The outcome of [fetch]. *)
Inductive FetchOutcome :=
| Rejects (message : string)
| Responds (ok : bool) (body : Body).

(** The identity service: endpoint URL, email and password to outcome. *)
Definition Server := string -> string -> string -> FetchOutcome.

(** What the form does to the world outside its own state. *)
Inductive Effect :=
| SetItem (key value : string)
| LoginSuccess (token email : string).

Definition with_result (st : State) (message : string) : State :=
  {| isLogin := isLogin st; email := email st; password := password st;
     error := message; loading := false |}.

(** The [catch] block: [setError(err.message || 'An error occurred')]. *)
Definition catch_error (st : State) (message : string) : State * list Effect :=
  (with_result st (or_else message "An error occurred"), []).

(** The request of [handleSubmit] and what comes back. *)
Definition fetch_auth (server : Server) (st : State) : FetchOutcome :=
  let endpoint := if isLogin st then "/auth/login" else "/auth/register" in
  server (API_URL +:+ endpoint) (email st) (password st).

(** [localStorage.setItem] as the form meets it: for a key and a value,
    the write is taken ([None]) or an exception with this message is
    thrown (the quota is exceeded, the storage is disabled). *)
Definition Writes := string -> string -> option Error.

(** [handleSubmit]: both writes and the success callback are inside the
    [try], so a write that throws ends in the [catch] block with what
    was stored before it and no callback.  The callback itself is taken
    to return normally, as the main view's [handleLoginSuccess] does. *)
Definition handleSubmit (server : Server) (writes : Writes) (st : State)
  : State * list Effect :=
  match fetch_auth server st with
  | Rejects message => catch_error st message
  | Responds false (NotJson message) => catch_error st message
  | Responds false (Json detail _) =>
      catch_error st (or_else (default "" detail) "Authentication failed")
  | Responds true (NotJson message) => catch_error st message
  | Responds true (Json _ access_token) =>
      match writes "auth_token" access_token with
      | Some message => catch_error st message
      | None =>
          match writes "user_email" (email st) with
          | Some message =>
              (with_result st (or_else message "An error occurred"),
               [ SetItem "auth_token" access_token ])
          | None =>
              (with_result st "",
               [ SetItem "auth_token" access_token;
                 SetItem "user_email" (email st);
                 LoginSuccess access_token (email st) ])
          end
      end
  end.

Definition handleSkip (st : State) : State * list Effect :=
  (st, [LoginSuccess "" ""]).

(** The identity service accepted the credentials: an OK response with
    a readable body. *)
Definition accepted (o : FetchOutcome) : bool :=
  match o with
  | Responds true (Json _ _) => true
  | _ => false
  end.

End Login.

(** ** [App]: the main view, its sign-in state and its event stream *)

Module App.

Record Evidence := {
  title : string;
  year : string;
  url : string;
  journal : option string
}.

Record Brief := {
  consensus : string;
  contradictions : string;
  knowledge_gaps : string;
  confidence : string
}.

(** The sign-in part of the component state. *)
Record Auth := {
  isAuthenticated : bool;
  authToken : string;
  userEmail : string;
  showLogin : bool
}.

(** The state with which the component mounts. *)
Definition initial_auth : Auth :=
  {| isAuthenticated := false; authToken := ""; userEmail := ""; showLogin := true |}.

(** [handleLoginSuccess], the [onLoginSuccess] given to the form. *)
Definition handleLoginSuccess (token email : string) (a : Auth) : Auth :=
  if truthy token && truthy email
  then {| isAuthenticated := true; authToken := token; userEmail := email;
          showLogin := false |}
  else {| isAuthenticated := isAuthenticated a; authToken := authToken a;
          userEmail := userEmail a; showLogin := false |}.

(** The sign-in state once the form's effects have taken place. *)
Definition after_login (a : Auth) (effects : list Login.Effect) : Auth :=
  fold_left
    (fun a effect =>
       match effect with
       | Login.LoginSuccess token email => handleLoginSuccess token email a
       | Login.SetItem _ _ => a
       end)
    effects a.

(** The query part of the component state. *)
Record Session := {
  queryHistory : list string;
  agentLog : list string;
  isStreaming : bool;
  brief : option Brief;
  evidence : list Evidence;
  followUpQuestions : list string
}.

(** The parsed [data] of a server-sent message, with the members the
    handler reads. *)
Record StreamData := {
  type : string;
  message : string;
  data_brief : option Brief;
  data_evidence : list Evidence;
  follow_up_questions : option (list string)
}.

Inductive SourceEvent :=
| MessageEvent (data : option StreamData)   (* [None]: the data does not parse *)
| ErrorEvent.

(** What [POST /query] gives the fallback: a failure of [fetch] or of
    [response.json()], or the body. *)
Inductive FallbackOutcome :=
| FallbackFails
| FallbackAnswers (success : bool) (b : option Brief) (e : list Evidence)
                  (f : option (list string)).

Definition add_log (s : Session) (line : string) (streaming : bool) : Session :=
  {| queryHistory := queryHistory s; agentLog := agentLog s ++ [line];
     isStreaming := streaming; brief := brief s; evidence := evidence s;
     followUpQuestions := followUpQuestions s |}.

Definition set_result (s : Session) (b : option Brief) (e : list Evidence)
           (f : option (list string)) : Session :=
  {| queryHistory := queryHistory s; agentLog := agentLog s;
     isStreaming := false; brief := b; evidence := e;
     followUpQuestions := default [] f |}.

(** [eventSource.onmessage] of [handleSubmit]: the state after the
    handler ran and whether it closed the source. *)
Definition onmessage (s : Session) (data : option StreamData) : Session * bool :=
  match data with
  | None => (s, false)
  | Some d =>
      if String.eqb (type d) "log" then
        (add_log s (message d) (isStreaming s), false)
      else if String.eqb (type d) "result" then
        (set_result s (data_brief d) (data_evidence d) (follow_up_questions d), false)
      else if String.eqb (type d) "error" then
        (add_log s ("[ERROR] " +:+ message d) false, false)
      else if String.eqb (type d) "done" then (s, true)
      else (s, false)
  end.

(** [fallbackQuery] *)
Definition fallbackQuery (outcome : FallbackOutcome) (s : Session) : Session :=
  match outcome with
  | FallbackAnswers true b e f => set_result s b e f
  | FallbackAnswers false _ _ _ => add_log s "[ERROR] No results returned." false
  | FallbackFails => add_log s "[ERROR] Fallback query failed." false
  end.

(** [eventSource.onerror] up to the call of [fallbackQuery]. *)
Definition onerror (s : Session) : Session :=
  add_log s "[ERROR] Connection to backend lost. Using fallback mode." false.

(** Delivery of the source's events until it is closed. *)
Fixpoint deliver (outcome : FallbackOutcome) (events : list SourceEvent) (s : Session)
  : Session :=
  match events with
  | [] => s
  | MessageEvent data :: rest =>
      let (s', closed) := onmessage s data in
      if closed then s' else deliver outcome rest s'
  | ErrorEvent :: _ => fallbackQuery outcome (onerror s)
  end.

(** [handleSubmit]: [stream] is what [new EventSource(...)] gives for
    the query and persona, an event sequence or an exception. *)
Definition handleSubmit (stream : string -> string -> Result (list SourceEvent))
           (outcome : FallbackOutcome) (query persona : string) (s : Session) : Session :=
  if negb (truthy (trim query)) then s
  else
    let s := {| queryHistory := query :: queryHistory s; agentLog := [];
                isStreaming := true; brief := None; evidence := [];
                followUpQuestions := followUpQuestions s |} in
    match stream query persona with
    | Ok events => deliver outcome events s
    | Throw _ => fallbackQuery outcome s
    end.

(** The browser's [localStorage] as the sign-in code uses it. *)
Definition apply_effects (ls : gmap string string) (effects : list Login.Effect)
  : gmap string string :=
  fold_left
    (fun ls effect =>
       match effect with
       | Login.SetItem key value => <[key := value]> ls
       | Login.LoginSuccess _ _ => ls
       end)
    effects ls.

(** The effect run on mount: a stored token and email sign the user in. *)
Definition restore_session (ls : gmap string string) (a : Auth) : Auth :=
  match ls !! "auth_token", ls !! "user_email" with
  | Some token, Some email =>
      if truthy token && truthy email
      then {| isAuthenticated := true; authToken := token; userEmail := email;
              showLogin := false |}
      else a
  | _, _ => a
  end.

(** [handleLogout] *)
Definition handleLogout (ls : gmap string string) (a : Auth)
  : gmap string string * Auth :=
  (delete "user_email" (delete "auth_token" ls),
   {| isAuthenticated := false; authToken := ""; userEmail := ""; showLogin := true |}).

(** The source reports an error before any ["done"] message. *)
Fixpoint errors_before_done (events : list SourceEvent) : bool :=
  match events with
  | [] => false
  | ErrorEvent :: _ => true
  | MessageEvent (Some d) :: rest =>
      negb (String.eqb (type d) "done") && errors_before_done rest
  | MessageEvent None :: rest => errors_before_done rest
  end.

(** A message of type ["done"]. *)
Definition is_done_message (e : SourceEvent) : bool :=
  match e with
  | MessageEvent (Some d) => String.eqb (type d) "done"
  | _ => false
  end.

Definition is_error_event (e : SourceEvent) : bool :=
  match e with
  | ErrorEvent => true
  | MessageEvent _ => false
  end.

End App.

(** ** [ChatBot]: the floating assistant *)

Module ChatBot.

Inductive Sender := FromUser | FromBot.

Record ChatMessage := {
  type : Sender;
  text : string;
  timestamp : nat
}.

Record State := {
  isOpen : bool;
  messages : list ChatMessage;
  inputValue : string;
  isLoading : bool
}.

(** What [POST /api/chat] comes to: a failure of [fetch] or of
    [response.json()], or a body with or without a [response] member. *)
Inductive ChatOutcome :=
| ChatFails
| ChatAnswers (response : option string).

Definition no_answer_text : string := "I'm sorry, I couldn't process that request.".
Definition error_text : string := "Sorry, I encountered an error. Please try again.".

(** The state with which the component mounts: closed, one greeting. *)
Definition initial (greeting : string) (now : nat) : State :=
  {| isOpen := false;
     messages := [{| type := FromBot; text := greeting; timestamp := now |}];
     inputValue := "";
     isLoading := false |}.

(** [sendMessage]: [server] answers the message sent; [sent] and
    [received] are the two readings of the clock. *)
Definition sendMessage (server : string -> ChatOutcome) (sent received : nat)
           (st : State) : State :=
  if negb (truthy (trim (inputValue st))) then st
  else
    let userMessage :=
      {| type := FromUser; text := inputValue st; timestamp := sent |} in
    let reply :=
      match server (inputValue st) with
      | ChatAnswers response => or_else (default "" response) no_answer_text
      | ChatFails => error_text
      end in
    {| isOpen := isOpen st;
       messages := (messages st ++ [userMessage])
                   ++ [{| type := FromBot; text := reply; timestamp := received |}];
       inputValue := "";
       isLoading := false |}.

(** [handleQuickQuestion] *)
Definition handleQuickQuestion (question : string) (st : State) : State :=
  {| isOpen := isOpen st; messages := messages st; inputValue := question;
     isLoading := isLoading st |}.

(** The quick questions are offered while [messages.length <= 2]. *)
Definition showsQuickQuestions (st : State) : bool :=
  Nat.leb (length (messages st)) 2.

(** A run of exchanges: each input typed, then sent. *)
Fixpoint converse (server : string -> ChatOutcome) (now : nat)
         (inputs : list string) (st : State) : State :=
  match inputs with
  | [] => st
  | input :: rest =>
      converse server (S (S now)) rest
        (sendMessage server now (S now) (handleQuickQuestion input st))
  end.

End ChatBot.

(** ** [PerformanceDashboard]: the live metrics list *)

Module PerformanceDashboard.

(** [eventSource.onmessage], for any type of parsed metric: the metric
    goes in front and ten are kept; data that does not parse ([None])
    leaves the list alone. *)
Definition onmessage {Metric : Type} (metrics : list Metric) (data : option Metric)
  : list Metric :=
  match data with
  | Some metric => firstn 10 (metric :: metrics)
  | None => metrics
  end.

(** The list after a run of messages. *)
Definition receive {Metric : Type} (events : list (option Metric))
           (metrics : list Metric) : list Metric :=
  fold_left onmessage events metrics.

(** The metrics among the messages, newest first. *)
Fixpoint parsed_newest_first {Metric : Type} (events : list (option Metric))
  : list Metric :=
  match events with
  | [] => []
  | Some metric :: rest => parsed_newest_first rest ++ [metric]
  | None :: rest => parsed_newest_first rest
  end.

End PerformanceDashboard.

(** ** [CategoryDashboard]: the category filter *)

Module CategoryDashboard.

Record Category := {
  name : string;
  count : nat;
  icon : string
}.

(** The predicate under [data.categories.filter]. *)
Definition matches (searchQuery : string) (cat : Category) : bool :=
  includes (toLowerCase (name cat)) (toLowerCase searchQuery)
  || existsb (fun word => includes (toLowerCase (name cat)) word)
             (split_space (toLowerCase searchQuery)).

(** [filteredCategories]; the query may be absent or empty. *)
Definition filteredCategories (searchQuery : option string) (categories : list Category)
  : list Category :=
  match searchQuery with
  | Some q => if truthy q then List.filter (matches q) categories else categories
  | None => categories
  end.

End CategoryDashboard.

(** ** The session core of the specification

    The server side (conversation store, preference aggregator, query
    orchestrator) is not among the sources; its operations are modelled
    from the specification. *)

Module Core.

(** Modelled from the spec: the role of a [Message] of the server's
    conversation log (section 3). *)
Inductive Role := User | Assistant.

(** Modelled from the spec: a [Message] of the server's conversation
    log (section 3). *)
Record Message := {
  role : Role;
  text : string;
  occurredAt : nat
}.

(** *** ConversationStore *)

(** Modelled from the spec: the conversation window of a user in the
    server's store (section 4.2); an unknown user has the empty window. *)
Definition window (store : gmap string (list Message)) (userID : string) : list Message :=
  default [] (store !! userID).

(** Modelled from the spec: [Append(userID, Message)] of the server's
    ConversationStore (section 4.2). *)
Definition Append (store : gmap string (list Message)) (userID : string) (m : Message)
  : gmap string (list Message) :=
  <[userID := window store userID ++ [m]]> store.

(** Modelled from the spec: "the last n Messages, chronological order,
    oldest first" of a window (section 4.2). *)
Definition last_messages (n : nat) (messages : list Message) : list Message :=
  drop (length messages - n) messages.

(** Modelled from the spec: [RecentWindow(userID, n=5)] of the
    server's ConversationStore (section 4.2); it lazily initialises the
    window of an unknown user. *)
Definition RecentWindow (store : gmap string (list Message)) (userID : string)
           (n : option nat) : gmap string (list Message) * list Message :=
  let messages := window store userID in
  (<[userID := messages]> store, last_messages (default 5 n) messages).

(** Modelled from the spec: a run of [Append] calls for one user, in
    order (testable property P4). *)
Definition append_all (store : gmap string (list Message)) (userID : string)
           (messages : list Message) : gmap string (list Message) :=
  fold_left (fun s m => Append s userID m) messages store.

(** *** PreferenceAggregator *)

(** Modelled from the spec: the server's [PreferenceProfile] (section
    3); [personaCounts] is kept in order of first recording, which the
    tie-break rule refers to. *)
Record PreferenceProfile := {
  userID : string;
  totalQueries : nat;
  personaCounts : list (string * nat);   (* in order of first recording *)
  topicCounts : gmap string nat;
  preferredPersona : option string;
  lastActiveAt : nat
}.

(** Modelled from the spec: the count of a persona-name in
    [personaCounts] (section 3), zero when absent. *)
Fixpoint count_of (name : string) (counts : list (string * nat)) : nat :=
  match counts with
  | [] => 0
  | (k, v) :: rest => if String.eqb k name then v else count_of name rest
  end.

(** Modelled from the spec: "increment personaCounts[persona]
    (initializing to 1 if absent)" (section 4.3). *)
Fixpoint increment (name : string) (counts : list (string * nat)) : list (string * nat) :=
  match counts with
  | [] => [(name, 1)]
  | (k, v) :: rest =>
      if String.eqb k name then (k, S v) :: rest
      else (k, v) :: increment name rest
  end.

(** Modelled from the spec: "the maximum count in personaCounts"
    (section 4.3). *)
Definition max_count (counts : list (string * nat)) : nat :=
  foldr (fun kv m => Nat.max kv.2 m) 0 counts.

(** Modelled from the spec: the personas sharing the maximum count,
    "the tied leaders", in order of first recording (section 4.3). *)
Definition leaders (counts : list (string * nat)) : list string :=
  (List.filter (fun kv => Nat.eqb kv.2 (max_count counts)) counts).*1.

(** Modelled from the spec: the recomputation of [preferredPersona]
    with its tie-break rule (section 4.3): the previous choice if it is
    among the leaders, otherwise the first-recorded leader. *)
Definition recompute_preferred (previous : option string) (counts : list (string * nat))
  : option string :=
  match previous with
  | Some p => if bool_decide (p ∈ leaders counts) then Some p else head (leaders counts)
  | None => head (leaders counts)
  end.

(** Modelled from the spec: "for each topic in topics, increment
    topicCounts[topic]" (section 4.3). *)
Definition increment_topics (topics : gset string) (counts : gmap string nat)
  : gmap string nat :=
  set_fold (fun topic m => <[topic := S (default 0 (m !! topic))]> m) counts topics.

(** Modelled from the spec: the per-user critical section of
    [RecordQuery] (section 4.3, step 1). *)
Definition record_query (p : PreferenceProfile) (persona : string)
           (topics : gset string) (now : nat) : PreferenceProfile :=
  let counts := increment persona (personaCounts p) in
  {| userID := userID p;
     totalQueries := S (totalQueries p);
     personaCounts := counts;
     topicCounts := increment_topics topics (topicCounts p);
     preferredPersona := recompute_preferred (preferredPersona p) counts;
     lastActiveAt := now |}.

(** Modelled from the spec: the profile of a never-initialised user,
    "treated as an empty default" (section 7). *)
Definition empty_profile (uid : string) : PreferenceProfile :=
  {| userID := uid; totalQueries := 0; personaCounts := []; topicCounts := ∅;
     preferredPersona := None; lastActiveAt := 0 |}.

(** Modelled from the spec: [GetProfile(userID)] of the server's
    PreferenceAggregator (section 4.3). *)
Definition GetProfile (profiles : gmap string PreferenceProfile) (uid : string)
  : PreferenceProfile :=
  default (empty_profile uid) (profiles !! uid).

(** Modelled from the spec: [RecordQuery(userID, persona, topics)] of
    the server's PreferenceAggregator (section 4.3). *)
Definition RecordQuery (profiles : gmap string PreferenceProfile) (uid persona : string)
           (topics : gset string) (now : nat) : gmap string PreferenceProfile :=
  <[uid := record_query (GetProfile profiles uid) persona topics now]> profiles.

(** Modelled from the spec: a run of [RecordQuery] calls for one user
    with no topics, and the [preferredPersona] seen after each
    (testable property P3). *)
Fixpoint preferred_after_each (profiles : gmap string PreferenceProfile) (uid : string)
         (personas : list string) (now : nat) : list (option string) :=
  match personas with
  | [] => []
  | persona :: rest =>
      let profiles' := RecordQuery profiles uid persona ∅ now in
      preferredPersona (GetProfile profiles' uid)
        :: preferred_after_each profiles' uid rest (S now)
  end.

(** *** QueryOrchestrator *)

(** Modelled from the spec: the brief of a result (glossary). *)
Record Brief := {
  consensus : string;
  contradiction : string;
  gap : string
}.

(** Modelled from the spec: the [Event] variant written by the server's
    orchestrator to its channel (section 3). *)
Inductive Event :=
| Progress (stageLabel : string) (occurredAt : nat)
| Result (brief : Brief) (evidence : list string) (followUps : list string)
| Failure (reason : string).

(** Modelled from the spec: the states of a server-side QuerySession
    (section 4.4). *)
Inductive SessionState := Started | Retrieving | Synthesizing | Completed | Failed.

(** Modelled from the spec: what the Evidence & Synthesis collaborator
    returns on success (section 6); the answer text and the follow-ups,
    whose origin the specification leaves open, travel with it. *)
Record Synthesis := {
  syn_evidence : list string;
  syn_brief : Brief;
  syn_topics : gset string;
  syn_answer : string;
  syn_followUps : list string
}.

(** Modelled from the spec: one call of the collaborator (section
    4.4, steps 2 to 5): the sub-stages it reported, then its result or
    the reason of its failure. *)
Record Outcome := {
  stages : list string;
  verdict : Synthesis + string
}.

(** Modelled from the spec: the collaborator interface
    [Synthesize(question, persona, context)] (section 6). *)
Definition Collaborator := string -> string -> list Message -> Outcome.

(** Modelled from the spec: the per-user state of the server shared by
    all sessions (section 5). *)
Record State := {
  preferences : gmap string PreferenceProfile;
  conversations : gmap string (list Message)
}.

(** Modelled from the spec: what a run of [Submit] leaves behind: the
    state, the events written to the channel, the session's last state. *)
Record Session := {
  final : State;
  events : list Event;
  phase : SessionState
}.

(** Modelled from the spec: the completion side effects of [Submit]
    (section 4.4, step 4), performed only for a known user: one
    [RecordQuery] and, in the chat variant, one [Append]. *)
Definition complete (st : State) (chat : bool) (now : nat) (persona : string)
           (uid : option string) (s : Synthesis) : State :=
  match uid with
  | None => st
  | Some u =>
      {| preferences := RecordQuery (preferences st) u persona (syn_topics s) now;
         conversations :=
           if chat
           then Append (conversations st) u
                       {| role := Assistant; text := syn_answer s; occurredAt := now |}
           else conversations st |}
  end.

(** Modelled from the spec: the conversation-context handed to the
    collaborator (section 4.4, step 2): the recent window of a known
    user, else empty. *)
Definition context_for (st : State) (uid : option string) : list Message :=
  match uid with
  | Some u => (RecentWindow (conversations st) u (Some 5)).2
  | None => []
  end.

(** Modelled from the spec: the terminal events, [Result] and
    [Failure] (section 3). *)
Definition is_terminal_event (e : Event) : bool :=
  match e with
  | Progress _ _ => false
  | Result _ _ _ => true
  | Failure _ => true
  end.

(** Modelled from the spec: [Submit(question, persona, userID?)] of the
    server's QueryOrchestrator (section 4.4, steps 1 to 5), with the
    events it writes to its channel. *)
Definition Submit (collaborator : Collaborator) (chat : bool) (now : nat)
           (question persona : string) (uid : option string) (st : State) : Session :=
  let retrieving := [Progress "retrieving evidence" now] in
  let (store, context) :=
    match uid with
    | Some u => RecentWindow (conversations st) u (Some 5)
    | None => (conversations st, [])
    end in
  let st1 := {| preferences := preferences st; conversations := store |} in
  let outcome := collaborator question persona context in
  let synthesizing := map (fun label => Progress label now) (stages outcome) in
  match verdict outcome with
  | inl s =>
      {| final := complete st1 chat now persona uid s;
         events := retrieving ++ synthesizing
                   ++ [Result (syn_brief s) (syn_evidence s) (syn_followUps s)];
         phase := Completed |}
  | inr reason =>
      {| final := st1;
         events := retrieving ++ synthesizing ++ [Failure reason];
         phase := Failed |}
  end.

(** Modelled from the spec: a server-pushed event of the streamed
    response (section 6): a JSON object with its [type] and, but for
    "done", the session event it carries as payload. *)
Record Pushed := {
  pushed_type : string;
  payload : option Event
}.

(** Modelled from the spec: a session event on the wire (section 6
    read with section 3): progress is pushed as "log", the result as
    "result", a failure as "error", which is also how the main view's
    handler reads these types. *)
Definition push (e : Event) : Pushed :=
  {| pushed_type :=
       match e with
       | Progress _ _ => "log"
       | Result _ _ _ => "result"
       | Failure _ => "error"
       end;
     payload := Some e |}.

(** Modelled from the spec: the event pushed when the orchestrator
    closes the channel (section 6, section 4.4 steps 4 and 5). *)
Definition pushed_done : Pushed := {| pushed_type := "done"; payload := None |}.

(** Modelled from the spec: the server's streamed response to a query
    request (section 6): the events of the session in the order they
    were written, then "done" for the closure of the channel. *)
Definition stream_response (s : Session) : list Pushed :=
  map push (events s) ++ [pushed_done].

(** Modelled from the spec: the pushed events of a given type. *)
Definition of_type (t : string) (e : Pushed) : bool := String.eqb (pushed_type e) t.

End Core.

(** ** Sample inputs *)

Module Samples.

(** Callbacks that always return normally. *)
Definition quiet {Call : Type} : list Call -> Call -> option Error :=
  fun _ _ => None.

Definition agent_request : APIClient.QueryRequest :=
  {| APIClient.query_text := "What is microgravity?";
     APIClient.persona := Some "Research Scientist";
     APIClient.conversationHistory := None |}.

Definition agent_response : APIClient.AgentResponse :=
  {| APIClient.answer := "Microgravity  weakens bone.";
     APIClient.confidence := None;
     APIClient.citations := None |}.

Definition agent_backend : APIClient.Backend :=
  {| APIClient.post_query := fun _ => Ok agent_response |}.

Definition request : EnhancedAPIClient.QueryRequest :=
  {| EnhancedAPIClient.question := "What is microgravity?";
     EnhancedAPIClient.persona := "Research Scientist";
     EnhancedAPIClient.conversation_history := None |}.

Definition noon : nat -> string := fun _ => "12:00:00".

(** A backend without streaming whose [POST /query] fails. *)
Definition failing_backend : EnhancedAPIClient.Backend :=
  {| EnhancedAPIClient.get_health := Ok false;
     EnhancedAPIClient.post_query := fun _ => Throw "Network Error";
     EnhancedAPIClient.open_stream := fun _ => Throw "unsupported";
     EnhancedAPIClient.clock := noon |}.

Definition no_data : EnhancedAPIClient.ResponseData :=
  {| EnhancedAPIClient.answer := None;
     EnhancedAPIClient.publications := None;
     EnhancedAPIClient.intermediate_steps := None;
     EnhancedAPIClient.brief := None;
     EnhancedAPIClient.evidence := None;
     EnhancedAPIClient.highlighted_concepts := None;
     EnhancedAPIClient.follow_up_questions := None;
     EnhancedAPIClient.agent_logs := None |}.

(** A legacy answer: free text, no brief. *)
Definition legacy_data : EnhancedAPIClient.ResponseData :=
  {| EnhancedAPIClient.answer :=
       Some "Studies agree. Key findings: bone loss in microgravity. More work is needed";
     EnhancedAPIClient.publications := None;
     EnhancedAPIClient.intermediate_steps := None;
     EnhancedAPIClient.brief := None;
     EnhancedAPIClient.evidence := None;
     EnhancedAPIClient.highlighted_concepts := None;
     EnhancedAPIClient.follow_up_questions := None;
     EnhancedAPIClient.agent_logs := None |}.

Definition log_message (s : string) : EnhancedAPIClient.SourceEvent :=
  EnhancedAPIClient.MessageEvent
    (Some {| EnhancedAPIClient.type := "log";
             EnhancedAPIClient.content := EnhancedAPIClient.Text s |}).

Definition result_message : EnhancedAPIClient.StreamData :=
  {| EnhancedAPIClient.type := "result";
     EnhancedAPIClient.content := EnhancedAPIClient.Response no_data |}.

Definition done_message : EnhancedAPIClient.StreamData :=
  {| EnhancedAPIClient.type := "done";
     EnhancedAPIClient.content := EnhancedAPIClient.Absent |}.

(** A legacy backend without streaming. *)
Definition legacy_backend : EnhancedAPIClient.Backend :=
  {| EnhancedAPIClient.get_health := Ok false;
     EnhancedAPIClient.post_query := fun _ => Ok legacy_data;
     EnhancedAPIClient.open_stream := fun _ => Throw "unsupported";
     EnhancedAPIClient.clock := noon |}.

(** A backend that announces streaming, sends one log and then drops
    the connection. *)
Definition dropping_backend : EnhancedAPIClient.Backend :=
  {| EnhancedAPIClient.get_health := Ok true;
     EnhancedAPIClient.post_query := fun _ => Ok legacy_data;
     EnhancedAPIClient.open_stream :=
       fun _ => Ok [log_message "Deconstructing user goal..."; EnhancedAPIClient.ErrorEvent];
     EnhancedAPIClient.clock := noon |}.

(** A backend whose [POST /query] answers with neither answer nor
    brief, such as [{success: false, error: ...}]. *)
Definition bare_backend : EnhancedAPIClient.Backend :=
  {| EnhancedAPIClient.get_health := Ok false;
     EnhancedAPIClient.post_query := fun _ => Ok no_data;
     EnhancedAPIClient.open_stream := fun _ => Throw "unsupported";
     EnhancedAPIClient.clock := noon |}.

Definition history_item (sid q : string) : QueryHistory.QueryHistoryItem :=
  {| QueryHistory.id := None;
     QueryHistory.session_id := sid;
     QueryHistory.query := q;
     QueryHistory.persona := "Research Scientist";
     QueryHistory.timestamp := "2025-10-05T12:00:00Z";
     QueryHistory.answer := None |}.

(** A fresh [localStorage] with room for every write. *)
Definition fresh_storage : QueryHistory.Storage :=
  {| QueryHistory.cells := ∅; QueryHistory.accepts := fun _ _ _ => true |}.

(** Twenty-two queries of one session, oldest first. *)
Definition many_items : list QueryHistory.QueryHistoryItem :=
  map (fun n => history_item "s1" (String (ascii_of_nat (65 + n)) ""))
      (seq 0 22).

Definition login_form : Login.State :=
  {| Login.isLogin := true;
     Login.email := "scientist@nasa.gov";
     Login.password := "wrong-password";
     Login.error := "";
     Login.loading := false |}.

(** An identity service that rejects every credential. *)
Definition rejecting_server : Login.Server :=
  fun _ _ _ => Login.Responds false (Login.Json (Some "Incorrect email or password") "").

Definition message (r : Core.Role) (t : string) (at_ : nat) : Core.Message :=
  {| Core.role := r; Core.text := t; Core.occurredAt := at_ |}.

Definition eight_messages : list Core.Message :=
  [ message Core.User "m1" 1; message Core.Assistant "m2" 2;
    message Core.User "m3" 3; message Core.Assistant "m4" 4;
    message Core.User "m5" 5; message Core.Assistant "m6" 6;
    message Core.User "m7" 7; message Core.Assistant "m8" 8 ].

(** A user with three recorded queries and two messages. *)
Definition known_state : Core.State :=
  {| Core.preferences :=
       Core.RecordQuery
         (Core.RecordQuery
            (Core.RecordQuery ∅ "u1" "Research Scientist" {["microgravity"]} 1)
            "u1" "Manager" ∅ 2)
         "u1" "Research Scientist" ∅ 3;
     Core.conversations :=
       Core.append_all ∅ "u1" [message Core.User "m1" 1; message Core.Assistant "m2" 2] |}.

(** A collaborator that reports one stage and then times out. *)
Definition timing_out : Core.Collaborator :=
  fun _ _ _ => {| Core.stages := ["synthesizing"]; Core.verdict := inr "Timeout" |}.

Definition app_message (t m : string) : App.SourceEvent :=
  App.MessageEvent
    (Some {| App.type := t; App.message := m; App.data_brief := None;
             App.data_evidence := []; App.follow_up_questions := None |}).

Definition app_done : App.StreamData :=
  {| App.type := "done"; App.message := ""; App.data_brief := None;
     App.data_evidence := []; App.follow_up_questions := None |}.

Definition app_session : App.Session :=
  {| App.queryHistory := []; App.agentLog := []; App.isStreaming := true;
     App.brief := None; App.evidence := []; App.followUpQuestions := [] |}.

(** A storage that takes every write, and one that takes none. *)
Definition roomy : Login.Writes := fun _ _ => None.
Definition full : Login.Writes := fun _ _ => Some "QuotaExceededError".

(** An identity service that accepts every credential. *)
Definition accepting_server : Login.Server :=
  fun _ _ _ => Login.Responds true (Login.Json None "eyJ0b2tlbg").

(** A chat service that answers with an empty body. *)
Definition mute_chat : string -> ChatBot.ChatOutcome :=
  fun _ => ChatBot.ChatAnswers None.

Definition categories : list CategoryDashboard.Category :=
  [ {| CategoryDashboard.name := "Plant Biology"; CategoryDashboard.count := 120;
       CategoryDashboard.icon := "P" |};
    {| CategoryDashboard.name := "Radiation"; CategoryDashboard.count := 80;
       CategoryDashboard.icon := "R" |};
    {| CategoryDashboard.name := "Bone Health"; CategoryDashboard.count := 60;
       CategoryDashboard.icon := "B" |} ].

End Samples.

(** * Properties *)

(** ** Strings *)

Lemma string_app_cons (c : ascii) (s t : string) :
  String c s +:+ t = String c (s +:+ t).
Proof. reflexivity. Qed.

Lemma string_app_nil_l (s : string) : "" +:+ s = s.
Proof. reflexivity. Qed.

Lemma string_app_nil_r (s : string) : s +:+ "" = s.
Proof.
  induction s as [|c s IH]; [reflexivity |].
  rewrite string_app_cons. f_equal. exact IH.
Qed.

Lemma string_app_assoc (a b c : string) : (a +:+ b) +:+ c = a +:+ b +:+ c.
Proof.
  induction a as [|x a IH]; [reflexivity |].
  rewrite !string_app_cons. f_equal. exact IH.
Qed.

Lemma split_space_nonempty (s : string) : split_space s <> [].
Proof.
  induction s as [|c s IH]; cbn; [discriminate |].
  destruct (Ascii.eqb c space); [discriminate |].
  destruct (split_space s); discriminate.
Qed.

Lemma accumulate_split (s acc : string) :
  APIClient.accumulate (split_space s) acc = acc +:+ s +:+ " ".
Proof.
  revert acc. induction s as [|c s IH]; intros acc; [reflexivity |].
  cbn [split_space]. destruct (Ascii.eqb_spec c space) as [-> | Hc].
  - unfold APIClient.accumulate in *. cbn [fold_left]. rewrite IH.
    rewrite string_app_assoc. reflexivity.
  - specialize (IH (acc +:+ String c "")).
    destruct (split_space s) as [|word words] eqn:E.
    + exfalso. exact (split_space_nonempty s E).
    + unfold APIClient.accumulate in *. cbn [fold_left] in IH |- *.
      rewrite !string_app_assoc in IH.
      rewrite !string_app_cons, !string_app_nil_l in IH.
      rewrite !string_app_cons. exact IH.
Qed.

Lemma trimEnd_app_space (s : string) :
  last_is_whitespace s = false -> trimEnd (s +:+ " ") = s.
Proof.
  induction s as [|c s IH]; intros H; [reflexivity |].
  destruct s as [|d s].
  - cbn in H. rewrite string_app_cons, string_app_nil_l.
    cbn [trimEnd]. rewrite H.
    replace (is_whitespace " ") with true by reflexivity. reflexivity.
  - change (last_is_whitespace (String d s) = false) in H.
    specialize (IH H).
    rewrite string_app_cons. cbn [trimEnd]. rewrite IH. reflexivity.
Qed.

Lemma trim_app_space (s : string) :
  no_outer_whitespace s = true -> trim (s +:+ " ") = s.
Proof.
  unfold no_outer_whitespace, trim. intros H.
  apply andb_prop in H as [Hf Hl].
  apply negb_true_iff in Hf. apply negb_true_iff in Hl.
  destruct s as [|c s]; [reflexivity |].
  cbn in Hf. rewrite string_app_cons.
  cbn [trimStart]. rewrite Hf. rewrite <- string_app_cons.
  exact (trimEnd_app_space (String c s) Hl).
Qed.

(** ** [APIClient.streamQuery] *)

Section StreamQuery.
Import APIClient.

Lemma one_terminal_last_snoc (progress : list Call) (final : Call) :
  forallb is_progress progress = true ->
  is_terminal final = true ->
  one_terminal_last (progress ++ [final]) = true.
Proof.
  intros Hp Hf. unfold one_terminal_last.
  rewrite rev_unit, Hf. cbn.
  apply forallb_forall. intros c Hc. apply in_rev in Hc.
  rewrite forallb_forall in Hp. exact (Hp c Hc).
Qed.

(** Whatever the callbacks do, the loop only ever adds progress
    invocations to the trace. *)
Lemma stream_words_progress (h : Handlers) (words : list string) :
  forall (acc : string) (trace : list Call),
  exists chunks,
    (stream_words h words acc trace).1 = trace ++ chunks
    /\ forallb is_progress chunks = true.
Proof.
  induction words as [|word rest IH]; intros acc trace; cbn [stream_words].
  - exists []. rewrite app_nil_r. split; reflexivity.
  - destruct (h trace _) as [e|].
    + eexists [_]. split; reflexivity.
    + destruct (IH (acc +:+ word +:+ " ") (trace ++ [OnChunk (trim (acc +:+ word +:+ " "))]))
        as (chunks & E & Hc).
      exists (OnChunk (trim (acc +:+ word +:+ " ")) :: chunks).
      rewrite E, <- app_assoc. split; [reflexivity | exact Hc].
Qed.

(** With callbacks that return normally the loop runs to its end, and
    its last chunk is the trimmed accumulation of all the words. *)
Lemma stream_words_normal (h : Handlers) (words : list string) :
  (forall trace call, h trace call = None) ->
  words <> [] ->
  forall (acc : string) (trace : list Call),
  exists chunks,
    stream_words h words acc trace
    = (trace ++ chunks ++ [OnChunk (trim (accumulate words acc))], None)
    /\ forallb is_progress chunks = true.
Proof.
  intros Hh. induction words as [|word rest IH]; intros Hne acc trace; [congruence |].
  cbn [stream_words]. rewrite Hh.
  destruct rest as [|word' rest'].
  - exists []. split; reflexivity.
  - destruct (IH ltac:(discriminate) (acc +:+ word +:+ " ")
                 (trace ++ [OnChunk (trim (acc +:+ word +:+ " "))]))
      as (chunks & E & Hc).
    exists (OnChunk (trim (acc +:+ word +:+ " ")) :: chunks).
    rewrite E, <- app_assoc. split; [reflexivity | exact Hc].
Qed.

End StreamQuery.

Section StreamQueryTrace.
Import APIClient.

(** When [onComplete] returns normally, the trace of [streamQuery] is
    a run of chunks closed by exactly one terminal invocation. *)
Lemma streamQuery_one_terminal (b : Backend) (request : QueryRequest) (h : Handlers) :
  (forall trace response, h trace (OnComplete response) = None) ->
  one_terminal_last (calls (streamQuery b request h)) = true.
Proof.
  intros Hc. unfold streamQuery.
  destruct (query b request) as [response | error].
  - destruct (stream_words_progress h (split_space (answer response)) "" [])
      as (chunks & E & Hp).
    destruct (stream_words h (split_space (answer response)) "" [])
      as [trace [error |]]; cbn in E; subst trace.
    + cbn. apply one_terminal_last_snoc; [exact Hp | reflexivity].
    + rewrite Hc. cbn. apply one_terminal_last_snoc; [exact Hp | reflexivity].
  - reflexivity.
Qed.

(** When [onComplete] throws, the [catch] block runs after it: two
    terminal invocations. *)
Example streamQuery_complete_then_error :
  calls (streamQuery Samples.agent_backend Samples.agent_request
           (fun _ call => match call with OnComplete _ => Some "boom" | _ => None end))
  = [ OnChunk "Microgravity"; OnChunk "Microgravity"; OnChunk "Microgravity  weakens";
      OnChunk "Microgravity  weakens bone.";
      OnComplete Samples.agent_response; OnError "boom" ].
Proof. reflexivity. Qed.

(** C10: for a response whose answer has no leading or trailing
    whitespace, and callbacks that return normally, the last chunk
    passed to [onChunk] is the answer itself, and [onComplete] then
    receives the response unchanged. *)
Theorem streamQuery_final_chunk_is_answer
        (b : Backend) (request : QueryRequest) (h : Handlers) (response : AgentResponse) :
  query b request = Ok response ->
  no_outer_whitespace (answer response) = true ->
  (forall trace call, h trace call = None) ->
  exists chunks,
    streamQuery b request h
    = {| calls := chunks ++ [OnChunk (answer response); OnComplete response];
         rejected := None |}
    /\ forallb is_progress chunks = true.
Proof.
  intros Hq Hw Hh. unfold streamQuery. rewrite Hq.
  destruct (stream_words_normal h (split_space (answer response)) Hh
              (split_space_nonempty _) "" []) as (chunks & E & Hp).
  rewrite E, Hh. rewrite accumulate_split, string_app_nil_l, (trim_app_space _ Hw).
  exists chunks. split; [| exact Hp].
  cbn. rewrite <- app_assoc. reflexivity.
Qed.

Lemma streamQuery_final_chunk_is_answer_witness :
  (query Samples.agent_backend Samples.agent_request = Ok Samples.agent_response
   /\ no_outer_whitespace (answer Samples.agent_response) = true)
  /\ exists chunks,
      streamQuery Samples.agent_backend Samples.agent_request Samples.quiet
      = {| calls := chunks ++ [OnChunk "Microgravity  weakens bone.";
                               OnComplete Samples.agent_response];
           rejected := None |}
      /\ forallb is_progress chunks = true.
Proof.
  split; [split; reflexivity |].
  apply (streamQuery_final_chunk_is_answer
           Samples.agent_backend Samples.agent_request Samples.quiet Samples.agent_response);
    [reflexivity | reflexivity | intros; reflexivity].
Defined.

End StreamQueryTrace.

(** ** [EnhancedAPIClient]: simulated streaming *)

Section SimulateStreaming.
Import EnhancedAPIClient.

Lemma forallb_progress_rev (trace : list Call) :
  forallb is_progress trace = true -> forallb is_progress (rev trace) = true.
Proof.
  intros H. apply forallb_forall. intros c Hc. apply in_rev in Hc.
  rewrite forallb_forall in H. exact (H c Hc).
Qed.

Lemma terminal_only_last_snoc (progress : list Call) (final : Call) :
  forallb is_progress progress = true ->
  terminal_only_last (progress ++ [final]) = true.
Proof.
  intros Hp. unfold terminal_only_last. rewrite rev_unit.
  exact (forallb_progress_rev _ Hp).
Qed.

Lemma terminal_only_last_progress (progress : list Call) :
  forallb is_progress progress = true ->
  terminal_only_last progress = true.
Proof.
  intros Hp. unfold terminal_only_last.
  pose proof (forallb_progress_rev _ Hp) as Hr.
  destruct (rev progress) as [|c before]; [reflexivity |].
  cbn in Hr. apply andb_prop in Hr. tauto.
Qed.

(** The log loop only adds progress invocations. *)
Lemma stream_logs_progress (h : Handlers) (logs : list string) :
  forall trace : list Call,
  exists added,
    (stream_logs h logs trace).1 = trace ++ added
    /\ forallb is_progress added = true.
Proof.
  induction logs as [|log rest IH]; intros trace; cbn [stream_logs].
  - exists []. rewrite app_nil_r. split; reflexivity.
  - destruct (h trace _) as [e|].
    + eexists [_]. split; reflexivity.
    + destruct (IH (trace ++ [OnLog (Text log)])) as (added & E & Hp).
      exists (OnLog (Text log) :: added).
      rewrite E, <- app_assoc. split; [reflexivity | exact Hp].
Qed.

(** With an [onLog] that returns normally every log is delivered. *)
Lemma stream_logs_normal (h : Handlers) (logs : list string) :
  (forall trace log, h trace (OnLog log) = None) ->
  forall trace : list Call,
    stream_logs h logs trace = (trace ++ map (fun l => OnLog (Text l)) logs, None).
Proof.
  intros Hh. induction logs as [|log rest IH]; intros trace; cbn [stream_logs map].
  - rewrite app_nil_r. reflexivity.
  - rewrite Hh, IH, <- app_assoc. reflexivity.
Qed.

Lemma simulateStreaming_terminal_only_last
      (b : Backend) (request : QueryRequest) (h : Handlers) :
  terminal_only_last (calls (simulateStreaming b request h)) = true.
Proof.
  unfold simulateStreaming.
  destruct (stream_logs_progress h (simulatedLogs b) []) as (added & E & Hp).
  destruct (stream_logs h (simulatedLogs b) []) as [trace [error |]];
    cbn in E; subst trace; cbn [calls].
  - apply terminal_only_last_progress, Hp.
  - destruct (query b request) as [result | error]; cbn [calls].
    + apply terminal_only_last_snoc, Hp.
    + apply terminal_only_last_progress, Hp.
Qed.

Lemma simulateStreaming_query_fails
      (b : Backend) (request : QueryRequest) (h : Handlers) (error : Error) :
  query b request = Throw error ->
  forallb is_progress (calls (simulateStreaming b request h)) = true.
Proof.
  intros Hq. unfold simulateStreaming.
  destruct (stream_logs_progress h (simulatedLogs b) []) as (added & E & Hp).
  destruct (stream_logs h (simulatedLogs b) []) as [trace [e |]];
    cbn in E; subst trace; cbn [calls]; [exact Hp |].
  rewrite Hq. exact Hp.
Qed.

Lemma simulateStreaming_query_succeeds
      (b : Backend) (request : QueryRequest) (h : Handlers) (result : ResponseData) :
  query b request = Ok result ->
  (forall trace log, h trace (OnLog log) = None) ->
  calls (simulateStreaming b request h)
  = map (fun l => OnLog (Text l)) (simulatedLogs b) ++ [OnComplete (Response result)].
Proof.
  intros Hq Hh. unfold simulateStreaming.
  rewrite (stream_logs_normal h _ Hh), Hq. reflexivity.
Qed.

End SimulateStreaming.

(** ** Ordering of the events of a streamed query *)

(** Every run of the orchestrator's [Submit] writes progress events
    and then exactly one terminal event. *)
Lemma Submit_events_in_order
      (collaborator : Core.Collaborator) (chat : bool) (now : nat)
      (question persona : string) (uid : option string) (st : Core.State) :
  exists progress terminal,
    Core.events (Core.Submit collaborator chat now question persona uid st)
    = progress ++ [terminal]
    /\ forallb (fun e => negb (Core.is_terminal_event e)) progress = true
    /\ Core.is_terminal_event terminal = true.
Proof.
  assert (Hp : forall labels,
             forallb (fun e => negb (Core.is_terminal_event e))
                     ([Core.Progress "retrieving evidence" now]
                      ++ map (fun label => Core.Progress label now) labels) = true).
  { intros labels. cbn. apply forallb_forall.
    intros e He. apply in_map_iff in He as (l & <- & _). reflexivity. }
  unfold Core.Submit.
  destruct (match uid with
            | Some u => Core.RecentWindow (Core.conversations st) u (Some 5)
            | None => (Core.conversations st, [])
            end) as [store context].
  destruct (Core.verdict (collaborator question persona context)) as [s | reason];
    cbn [Core.events]; rewrite app_assoc; eexists; eexists;
    (split; [reflexivity | split; [apply Hp | reflexivity]]).
Qed.

(** C1, as stated, fails: when the backend's query fails,
    [simulateStreaming] delivers its eight logs and then invokes no
    terminal callback at all. *)
Lemma simulateStreaming_failure_has_no_terminal :
  EnhancedAPIClient.one_terminal_last
    (EnhancedAPIClient.calls
       (EnhancedAPIClient.simulateStreaming
          Samples.failing_backend Samples.request Samples.quiet)) = false.
Proof. reflexivity. Qed.

(** C1, amended: every session of the orchestrator emits progress
    events and then exactly one terminal event.  In the client: when
    [onComplete] returns normally, [streamQuery] invokes any number of
    [onChunk], then exactly one of [onComplete] and [onError], then
    nothing.  [simulateStreaming] invokes [onLog] some number of times
    and then [onComplete] at most once, as its last invocation: never
    when the query fails, and after all eight logs when the query
    succeeds and [onLog] returns normally. *)
Theorem streamed_callbacks_in_order
        (b : APIClient.Backend) (request : APIClient.QueryRequest) (h : APIClient.Handlers)
        (eb : EnhancedAPIClient.Backend) (erequest : EnhancedAPIClient.QueryRequest)
        (eh : EnhancedAPIClient.Handlers) :
  (forall trace response, h trace (APIClient.OnComplete response) = None) ->
  (forall collaborator chat now question persona uid st,
      exists progress terminal,
        Core.events (Core.Submit collaborator chat now question persona uid st)
        = progress ++ [terminal]
        /\ forallb (fun e => negb (Core.is_terminal_event e)) progress = true
        /\ Core.is_terminal_event terminal = true)
  /\ APIClient.one_terminal_last (APIClient.calls (APIClient.streamQuery b request h)) = true
  /\ EnhancedAPIClient.terminal_only_last
       (EnhancedAPIClient.calls (EnhancedAPIClient.simulateStreaming eb erequest eh)) = true
  /\ (forall error,
        EnhancedAPIClient.query eb erequest = Throw error ->
        forallb EnhancedAPIClient.is_progress
          (EnhancedAPIClient.calls (EnhancedAPIClient.simulateStreaming eb erequest eh)) = true)
  /\ (forall result,
        EnhancedAPIClient.query eb erequest = Ok result ->
        (forall trace log, eh trace (EnhancedAPIClient.OnLog log) = None) ->
        EnhancedAPIClient.calls (EnhancedAPIClient.simulateStreaming eb erequest eh)
        = map (fun l => EnhancedAPIClient.OnLog (EnhancedAPIClient.Text l))
              (EnhancedAPIClient.simulatedLogs eb)
          ++ [EnhancedAPIClient.OnComplete (EnhancedAPIClient.Response result)]).
Proof.
  intros Hc. split; [exact Submit_events_in_order |].
  split; [exact (streamQuery_one_terminal b request h Hc) |].
  split; [apply simulateStreaming_terminal_only_last |].
  split.
  - intros error. apply simulateStreaming_query_fails.
  - intros result. apply simulateStreaming_query_succeeds.
Qed.

Lemma streamed_callbacks_in_order_witness :
  APIClient.one_terminal_last
    (APIClient.calls
       (APIClient.streamQuery Samples.agent_backend Samples.agent_request Samples.quiet)) = true
  /\ EnhancedAPIClient.terminal_only_last
       (EnhancedAPIClient.calls
          (EnhancedAPIClient.simulateStreaming
             Samples.legacy_backend Samples.request Samples.quiet)) = true.
Proof.
  pose proof (streamed_callbacks_in_order
                Samples.agent_backend Samples.agent_request Samples.quiet
                Samples.legacy_backend Samples.request Samples.quiet
                (fun _ _ => eq_refl)) as (_ & H1 & H2 & _).
  exact (conj H1 H2).
Defined.

(** ** Degraded mode of [queryWithStreaming] *)

Section Fallback.
Import EnhancedAPIClient.

Lemma completions_app (t1 t2 : list Call) :
  completions (t1 ++ t2) = completions t1 ++ completions t2.
Proof.
  induction t1 as [|c t1 IH]; [reflexivity |].
  destruct c; cbn; rewrite IH; reflexivity.
Qed.

Lemma completions_logs (logs : list string) :
  completions (map (fun l => OnLog (Text l)) logs) = [].
Proof. induction logs as [|l logs IH]; [reflexivity | exact IH]. Qed.

(** The payload the blocking form hands to a caller, if any. *)
Lemma completions_query_then_onComplete
      (b : Backend) (request : QueryRequest) (trace : list Call) :
  completions (query_then_onComplete b request trace)
  = completions trace
    ++ match query b request with Ok r => [Response r] | Throw _ => [] end.
Proof.
  unfold query_then_onComplete. destruct (query b request).
  - rewrite completions_app. reflexivity.
  - rewrite app_nil_r. reflexivity.
Qed.

Lemma dispatch_errors_before_result
      (b : Backend) (request : QueryRequest) (h : Handlers) (events : list SourceEvent) :
  errors_before_result events = true ->
  forall trace,
    completions (dispatch b request h events trace)
    = completions trace
      ++ match query b request with Ok r => [Response r] | Throw _ => [] end.
Proof.
  induction events as [|e rest IH]; intros He trace; [discriminate |].
  destruct e as [[d |] |]; cbn [dispatch].
  - cbn in He. unfold onmessage.
    destruct (String.eqb (type d) "log") eqn:Elog.
    + apply andb_prop in He as [_ He]. rewrite (IH He), completions_app.
      cbn. rewrite app_nil_r. reflexivity.
    + destruct (String.eqb (type d) "result") eqn:Eres; [discriminate |].
      apply (IH He).
  - cbn in He. apply (IH He).
  - apply completions_query_then_onComplete.
Qed.

(** C4: when the streaming transport is unavailable and [onLog]
    returns normally, [onComplete] receives exactly the value that
    [query] returns for the same request, once; when [query] fails
    [onComplete] is not invoked. *)
Theorem fallback_completes_with_query_result
        (b : Backend) (request : QueryRequest) (h : Handlers) :
  streaming_unavailable b request = true ->
  (forall trace log, h trace (OnLog log) = None) ->
  completions (queryWithStreaming b request h)
  = match query b request with
    | Ok result => [Response result]
    | Throw _ => []
    end.
Proof.
  intros Hu Hh. unfold streaming_unavailable in Hu. unfold queryWithStreaming.
  destruct (checkStreamingSupport b); cbn in Hu.
  - destruct (open_stream b request) as [events | error].
    + exact (dispatch_errors_before_result b request h events Hu []).
    + exact (completions_query_then_onComplete b request []).
  - destruct (query b request) as [result | error] eqn:Hq.
    + rewrite (simulateStreaming_query_succeeds b request h result Hq Hh).
      rewrite completions_app, completions_logs. reflexivity.
    + unfold simulateStreaming. rewrite (stream_logs_normal h _ Hh), Hq.
      apply completions_logs.
Qed.

Lemma fallback_completes_with_query_result_witness :
  (streaming_unavailable Samples.dropping_backend Samples.request = true
   /\ streaming_unavailable Samples.legacy_backend Samples.request = true)
  /\ completions (queryWithStreaming Samples.dropping_backend Samples.request Samples.quiet)
     = [Response (transformLegacyResponse Samples.legacy_data)]
  /\ completions (queryWithStreaming Samples.legacy_backend Samples.request Samples.quiet)
     = [Response (transformLegacyResponse Samples.legacy_data)].
Proof.
  split; [split; reflexivity |]. split.
  - exact (fallback_completes_with_query_result
             Samples.dropping_backend Samples.request Samples.quiet
             eq_refl (fun _ _ => eq_refl)).
  - exact (fallback_completes_with_query_result
             Samples.legacy_backend Samples.request Samples.quiet
             eq_refl (fun _ _ => eq_refl)).
Defined.

End Fallback.

(** ** Stream events as the client declares and consumes them *)

Section StreamEvents.
Import EnhancedAPIClient.

(** Messages before the first result, with no error among them, only
    produce their logs. *)
Lemma dispatch_until_result
      (b : Backend) (request : QueryRequest) (h : Handlers)
      (before : list SourceEvent) (d : StreamData) (after : list SourceEvent) :
  forallb (fun e => negb (is_result_message e) && negb (is_error_event e)) before = true ->
  String.eqb (type d) "result" = true ->
  forall trace,
    h (trace ++ log_calls before) (OnComplete (content d)) = None ->
    dispatch b request h (before ++ MessageEvent (Some d) :: after) trace
    = trace ++ log_calls before ++ [OnComplete (content d)].
Proof.
  intros Hb Hd. induction before as [|e rest IH]; intros trace Hh.
  - cbn [app log_calls dispatch onmessage] in *. rewrite app_nil_r in Hh.
    destruct (String.eqb (type d) "log") eqn:Elog.
    + apply String.eqb_eq in Elog. apply String.eqb_eq in Hd. congruence.
    + rewrite Hd, Hh. rewrite bool_decide_eq_true_2; reflexivity.
  - cbn [forallb] in Hb. apply andb_prop in Hb as [He Hb].
    apply andb_prop in He as [Hres Herr].
    destruct e as [[m |] |]; [| | discriminate].
    + cbn in Hres. apply negb_true_iff in Hres.
      cbn [app dispatch onmessage log_calls] in *.
      destruct (String.eqb (type m) "log") eqn:Elog.
      * rewrite (IH Hb (trace ++ [OnLog (content m)])).
        -- rewrite <- app_assoc. reflexivity.
        -- rewrite <- app_assoc. exact Hh.
      * rewrite Hres. apply (IH Hb trace Hh).
    + cbn [app dispatch onmessage log_calls] in *. apply (IH Hb trace Hh).
Qed.

(** The main view only stops at a ["done"] message: what precedes it,
    with no error among it, is all delivered, and what follows is not. *)
Lemma deliver_until_done
      (outcome : App.FallbackOutcome) (before : list App.SourceEvent)
      (d : App.StreamData) (after : list App.SourceEvent) :
  forallb (fun e => negb (App.is_done_message e) && negb (App.is_error_event e)) before = true ->
  String.eqb (App.type d) "done" = true ->
  forall s : App.Session,
    App.deliver outcome (before ++ App.MessageEvent (Some d) :: after) s
    = App.deliver outcome before s.
Proof.
  intros Hb Hd. induction before as [|e rest IH]; intros s.
  - cbn [app App.deliver App.onmessage].
    apply String.eqb_eq in Hd. rewrite Hd. reflexivity.
  - cbn [forallb] in Hb. apply andb_prop in Hb as [He Hb].
    apply andb_prop in He as [Hdone Herr].
    destruct e as [data |]; [| discriminate].
    cbn [app App.deliver].
    destruct (App.onmessage s data) as [s' closed]. destruct closed; [reflexivity |].
    apply (IH Hb).
Qed.

(** The API client stops at the result: a ["done"] event that follows
    it is never consumed. *)
Example done_event_never_consumed :
  dispatch Samples.legacy_backend Samples.request Samples.quiet
    [ Samples.log_message "a"; MessageEvent (Some Samples.result_message);
      MessageEvent (Some Samples.done_message); Samples.log_message "b" ] []
  = [ OnLog (Text "a"); OnComplete (Response Samples.no_data) ].
Proof. reflexivity. Qed.

(** The main view takes a stream that ends without any result or error. *)
Example done_without_result_accepted :
  App.deliver App.FallbackFails
    [ Samples.app_message "log" "a"; App.MessageEvent (Some Samples.app_done) ]
    Samples.app_session
  = App.add_log Samples.app_session "a" true.
Proof. reflexivity. Qed.

(** X17: the API client's message handler acts on "log" and "result"
    only and consumes a stream up to its first "result": each "log"
    before it goes to [onLog], the result goes to [onComplete] and, when
    that returns normally, nothing that follows is consumed.  The main
    view's handler acts on "log", "result", "error" and "done" only and
    consumes a stream up to its first "done", whatever number of results
    or errors came before. *)
Theorem handlers_consume_until_closed :
  (forall (h : Handlers) (trace : list Call) (d : StreamData),
      type d <> "log" -> type d <> "result" ->
      onmessage h trace (Some d) = (trace, false))
  /\ (forall (b : Backend) (request : QueryRequest) (h : Handlers)
             (before : list SourceEvent) (d : StreamData) (after : list SourceEvent),
        forallb (fun e => negb (is_result_message e) && negb (is_error_event e)) before = true ->
        type d = "result" ->
        h (log_calls before) (OnComplete (content d)) = None ->
        dispatch b request h (before ++ MessageEvent (Some d) :: after) []
        = log_calls before ++ [OnComplete (content d)])
  /\ (forall (s : App.Session) (d : App.StreamData),
        App.type d <> "log" -> App.type d <> "result" ->
        App.type d <> "error" -> App.type d <> "done" ->
        App.onmessage s (Some d) = (s, false))
  /\ (forall (outcome : App.FallbackOutcome) (before : list App.SourceEvent)
             (d : App.StreamData) (after : list App.SourceEvent) (s : App.Session),
        forallb (fun e => negb (App.is_done_message e) && negb (App.is_error_event e))
                before = true ->
        App.type d = "done" ->
        App.deliver outcome (before ++ App.MessageEvent (Some d) :: after) s
        = App.deliver outcome before s).
Proof.
  split; [| split; [| split]].
  - intros h trace d Hlog Hres. unfold onmessage.
    apply String.eqb_neq in Hlog. apply String.eqb_neq in Hres.
    rewrite Hlog, Hres. reflexivity.
  - intros b request h before d after Hb Hd Hh.
    apply String.eqb_eq in Hd.
    exact (dispatch_until_result b request h before d after Hb Hd [] Hh).
  - intros s d Hlog Hres Herr Hdone. unfold App.onmessage.
    apply String.eqb_neq in Hlog. apply String.eqb_neq in Hres.
    apply String.eqb_neq in Herr. apply String.eqb_neq in Hdone.
    rewrite Hlog, Hres, Herr, Hdone. reflexivity.
  - intros outcome before d after s Hb Hd.
    apply String.eqb_eq in Hd.
    exact (deliver_until_done outcome before d after Hb Hd s).
Qed.

Lemma handlers_consume_until_closed_witness :
  onmessage Samples.quiet [] (Some Samples.done_message) = ([], false)
  /\ dispatch Samples.legacy_backend Samples.request Samples.quiet
       ([Samples.log_message "a"; MessageEvent (Some Samples.done_message)]
        ++ MessageEvent (Some Samples.result_message)
        :: [MessageEvent (Some Samples.done_message)]) []
     = [OnLog (Text "a"); OnComplete (Response Samples.no_data)]
  /\ App.deliver App.FallbackFails
       ([Samples.app_message "log" "a"; Samples.app_message "thought" "b"]
        ++ App.MessageEvent (Some Samples.app_done) :: [Samples.app_message "log" "c"])
       Samples.app_session
     = App.add_log Samples.app_session "a" true.
Proof.
  destruct handlers_consume_until_closed as (Hother & Hstream & _ & Hdone).
  split; [apply Hother; discriminate |]. split.
  - exact (Hstream Samples.legacy_backend Samples.request Samples.quiet
             [Samples.log_message "a"; MessageEvent (Some Samples.done_message)]
             Samples.result_message [MessageEvent (Some Samples.done_message)]
             eq_refl eq_refl eq_refl).
  - rewrite (Hdone App.FallbackFails
               [Samples.app_message "log" "a"; Samples.app_message "thought" "b"]
               Samples.app_done [Samples.app_message "log" "c"] Samples.app_session
               eq_refl eq_refl).
    reflexivity.
Defined.

End StreamEvents.

(** ** The streamed response of the server *)

Section StreamedResponse.
Import Core.

Lemma push_progress (progress : list Event) :
  forallb (fun e => negb (is_terminal_event e)) progress = true ->
  Forall (fun e => pushed_type e = "log") (map push progress).
Proof.
  induction progress as [|e rest IH]; [constructor |].
  cbn [forallb map]. intros [He Hrest]%andb_prop.
  constructor; [| exact (IH Hrest)].
  destruct e; [reflexivity | discriminate He | discriminate He].
Qed.

Lemma filter_of_type_logs (t : string) (logs : list Pushed) :
  t <> "log" ->
  Forall (fun e => pushed_type e = "log") logs ->
  List.filter (of_type t) logs = [].
Proof.
  intros Ht. induction 1 as [|e rest He _ IH]; [reflexivity |].
  cbn [List.filter]. unfold of_type at 1. rewrite He.
  destruct (String.eqb_spec "log" t) as [E | _]; [congruence | exact IH].
Qed.

(** C5: every event of the server's streamed response is a JSON object
    whose type is one of "log", "result", "error", "done"; the stream is
    a run of "log" events, then exactly one "result" or "error" event,
    then the single "done" event that ends it. *)
Theorem streamed_response_ends_with_done
        (collaborator : Collaborator) (chat : bool) (now : nat)
        (question persona : string) (uid : option string) (st : State) :
  Forall (fun e => In (pushed_type e) ["log"; "result"; "error"; "done"])
         (stream_response (Submit collaborator chat now question persona uid st))
  /\ (exists logs terminal,
        stream_response (Submit collaborator chat now question persona uid st)
        = logs ++ [terminal; pushed_done]
        /\ Forall (fun e => pushed_type e = "log") logs
        /\ (pushed_type terminal = "result" \/ pushed_type terminal = "error"))
  /\ length (List.filter (fun e => of_type "result" e || of_type "error" e)
                         (stream_response
                            (Submit collaborator chat now question persona uid st))) = 1
  /\ length (List.filter (of_type "done")
                         (stream_response
                            (Submit collaborator chat now question persona uid st))) = 1.
Proof.
  destruct (Submit_events_in_order collaborator chat now question persona uid st)
    as (progress & terminal & Hev & Hp & Ht).
  unfold stream_response. rewrite Hev, map_app. cbn [map].
  pose proof (push_progress progress Hp) as Hlogs.
  assert (Hterm : pushed_type (push terminal) = "result"
                  \/ pushed_type (push terminal) = "error").
  { destruct terminal; [discriminate Ht | left; reflexivity | right; reflexivity]. }
  split; [| split; [| split]].
  - rewrite <- app_assoc. apply Forall_app. split.
    + eapply Forall_impl; [exact Hlogs |].
      intros e He. cbn beta in *. rewrite He. left. reflexivity.
    + constructor; [| constructor; [| constructor]].
      * destruct Hterm as [-> | ->]; cbn; tauto.
      * cbn. tauto.
  - exists (map push progress), (push terminal).
    split; [rewrite <- app_assoc; reflexivity | split; assumption].
  - rewrite !List.filter_app.
    assert (Hnone : List.filter (fun e => of_type "result" e || of_type "error" e)
                                (map push progress) = []).
    { clear -Hlogs. induction Hlogs as [|e rest He _ IH]; [reflexivity |].
      cbn [List.filter]. unfold of_type at 1 2. rewrite He. exact IH. }
    rewrite Hnone. cbn [List.filter app]. unfold of_type.
    destruct Hterm as [-> | ->]; reflexivity.
  - rewrite !List.filter_app, (filter_of_type_logs "done" _ ltac:(discriminate) Hlogs).
    cbn [List.filter app]. unfold of_type at 1.
    destruct Hterm as [-> | ->]; reflexivity.
Qed.

End StreamedResponse.

(** ** [EnhancedAPIClient.query] and the legacy transform *)

Section LegacyTransform.
Import EnhancedAPIClient.

Lemma truthy_app_middle (a b c : string) :
  truthy b = true -> truthy (a +:+ b +:+ c) = true.
Proof.
  intros Hb. destruct a as [|x a]; [| reflexivity].
  rewrite string_app_nil_l. destruct b as [|y b]; [discriminate | reflexivity].
Qed.

Lemma match_to_dot_truthy (s matched rest : string) :
  match_to_dot s = Some (matched, rest) -> truthy matched = true.
Proof.
  destruct s as [|c s]; cbn [match_to_dot]; [discriminate |].
  destruct (Ascii.eqb c dot).
  - intros [= <- _]. reflexivity.
  - destruct (match_to_dot s) as [[m r] |]; [| discriminate].
    intros [= <- _]. reflexivity.
Qed.

Lemma match_here_truthy (keyword s found : string) :
  match_here keyword s = Some found -> truthy found = true.
Proof.
  unfold match_here.
  destruct (match_keyword keyword s) as [[m1 r1] |]; [| discriminate].
  destruct (match_to_dot r1) as [[m2 r2] |] eqn:E; [| discriminate].
  intros [= <-]. apply truthy_app_middle. exact (match_to_dot_truthy _ _ _ E).
Qed.

(** A section found by the pattern is never empty: it holds at least
    the full stop that the pattern demands. *)
Lemma extractSection_truthy (text keyword found : string) :
  extractSection text keyword = Some found -> truthy found = true.
Proof.
  induction text as [|c text IH]; cbn [extractSection].
  - destruct (match_here keyword "") eqn:E; [| discriminate].
    intros [= <-]. exact (match_here_truthy _ _ _ E).
  - destruct (match_here keyword (String c text)) eqn:E.
    + intros [= <-]. exact (match_here_truthy _ _ _ E).
    + exact IH.
Qed.

Lemma or_text_truthy (a : option string) (fallback : string) :
  truthy fallback = true -> truthy (or_text a fallback) = true.
Proof.
  intros Hf. unfold or_text, or_else. destruct a as [s |]; [| exact Hf].
  destruct (truthy s) eqn:Hs; [exact Hs | exact Hf].
Qed.

Lemma or_text_none (fallback : string) : or_text None fallback = fallback.
Proof. reflexivity. Qed.

Lemma substring0_truthy (n : nat) (s : string) :
  truthy s = true -> truthy (substring0 (S n) s) = true.
Proof. destruct s; [discriminate | reflexivity]. Qed.

(** C9, as stated, fails: a backend response with neither answer nor
    brief is returned as it came, without any brief. *)
Lemma query_passes_response_without_brief :
  query Samples.bare_backend Samples.request = Ok Samples.no_data
  /\ brief_complete Samples.no_data = false.
Proof. split; reflexivity. Qed.

(** C9, amended: for a backend response that carries a non-empty answer
    and no brief, [query] returns the legacy transform of it, whose brief
    has non-empty consensus, contradiction and gap: the consensus is the
    section found for "consensus" or "findings", else the first 300
    characters of the answer; contradiction and gap fall back to their
    fixed sentences when no section is found; the follow-up questions
    are the three fixed ones.  Any other response is returned as is. *)
Theorem query_legacy_brief_is_complete
        (b : Backend) (request : QueryRequest) (data : ResponseData) :
  post_query b request = Ok data ->
  (forall a : string,
      answer data = Some a -> a <> "" -> brief data = None ->
      exists br : Brief,
        query b request = Ok (transformLegacyResponse data)
        /\ brief (transformLegacyResponse data) = Some br
        /\ brief_complete (transformLegacyResponse data) = true
        /\ consensus br
           = or_text (or_section (extractSection a "consensus") (extractSection a "findings"))
                     (substring0 300 a)
        /\ (extractSection a "consensus" = None -> extractSection a "findings" = None ->
            consensus br = substring0 300 a)
        /\ (extractSection a "contradiction" = None -> extractSection a "conflicting" = None ->
            contradiction br = default_contradiction)
        /\ (extractSection a "gap" = None -> extractSection a "future research" = None ->
            gap br = default_gap)
        /\ follow_up_questions (transformLegacyResponse data) = Some fixed_follow_ups
        /\ length fixed_follow_ups = 3)
  /\ (brief data <> None \/ or_text (answer data) "" = "" -> query b request = Ok data).
Proof.
  intros Hpost. split.
  - intros a Ha Hne Hb.
    assert (Ht : truthy a = true) by (destruct a; [congruence | reflexivity]).
    assert (Hor : or_text (answer data) "" = a).
    { rewrite Ha. unfold or_text, or_else. rewrite Ht. reflexivity. }
    eexists. split; [| split; [reflexivity |]].
    { unfold query. rewrite Hpost, Hor, Ht, Hb. reflexivity. }
    unfold brief_complete, transformLegacyResponse. cbn [brief consensus contradiction gap follow_up_questions].
    rewrite Hor. repeat split.
    + rewrite !or_text_truthy; [reflexivity | reflexivity | reflexivity |].
      apply (substring0_truthy 299), Ht.
    + intros -> ->. reflexivity.
    + intros -> ->. reflexivity.
    + intros -> ->. reflexivity.
  - intros Hcase. unfold query. rewrite Hpost.
    destruct Hcase as [Hb | Ha].
    + destruct (brief data); [| congruence].
      rewrite bool_decide_eq_true_2 by eauto. rewrite andb_false_r. reflexivity.
    + rewrite Ha. reflexivity.
Qed.

Lemma query_legacy_brief_is_complete_witness :
  post_query Samples.legacy_backend Samples.request = Ok Samples.legacy_data
  /\ exists br : Brief,
      query Samples.legacy_backend Samples.request
      = Ok (transformLegacyResponse Samples.legacy_data)
      /\ brief (transformLegacyResponse Samples.legacy_data) = Some br
      /\ brief_complete (transformLegacyResponse Samples.legacy_data) = true
      /\ consensus br = "findings: bone loss in microgravity. More work is needed"
      /\ contradiction br = default_contradiction.
Proof.
  split; [reflexivity |].
  destruct (proj1 (query_legacy_brief_is_complete
                     Samples.legacy_backend Samples.request Samples.legacy_data eq_refl)
                  _ eq_refl ltac:(discriminate) eq_refl)
    as (br & Hq & Hbr & Hc & Hcons & _ & Hcontra & _).
  exists br. repeat split; try assumption.
  apply Hcontra; reflexivity.
Defined.

End LegacyTransform.

(** ** [queryHistoryService] *)

Section History.
Import QueryHistory.

Lemma history_key_inj (s1 s2 : string) : history_key s1 = history_key s2 -> s1 = s2.
Proof.
  unfold history_key. intros H.
  apply (inj (String.app HISTORY_KEY)) in H.
  apply (inj (String.app "_")) in H. exact H.
Qed.

Lemma saveQuery_accepts (ls : Storage) (item : QueryHistoryItem) :
  accepts (saveQuery ls item) = accepts ls.
Proof.
  unfold saveQuery, setItem.
  destruct (getLocalHistory ls (session_id item)); [| reflexivity].
  destruct (accepts ls _ _ _); reflexivity.
Qed.

(** A save leaves the histories of the other sessions alone. *)
Lemma saveQuery_other_session (ls : Storage) (item : QueryHistoryItem) (sid : string) :
  session_id item <> sid ->
  getLocalHistory (saveQuery ls item) sid = getLocalHistory ls sid.
Proof.
  intros Hne. unfold saveQuery, setItem.
  destruct (getLocalHistory ls (session_id item)); [| reflexivity].
  destruct (accepts ls _ _ _); [| reflexivity].
  unfold getLocalHistory, getItem. cbn [cells].
  rewrite lookup_insert_ne; [reflexivity |].
  intros H. apply history_key_inj in H. contradiction.
Qed.

(** A save that the storage takes puts the item in front and keeps
    twenty; one that it refuses changes nothing. *)
Lemma saveQuery_same_session (ls : Storage) (item : QueryHistoryItem)
      (held : list QueryHistoryItem) :
  getLocalHistory ls (session_id item) = Items held ->
  getLocalHistory (saveQuery ls item) (session_id item)
  = if accepts ls (cells ls) (history_key (session_id item))
                  (Serialized (firstn 20 (item :: held)))
    then Items (firstn 20 (item :: held))
    else Items held.
Proof.
  intros Hh. unfold saveQuery, setItem. rewrite Hh.
  destruct (accepts ls _ _ _); [| exact Hh].
  unfold getLocalHistory, getItem. cbn [cells].
  rewrite lookup_insert_eq. reflexivity.
Qed.

Lemma firstn_cons_firstn {A : Type} (n : nat) (x : A) (l : list A) :
  firstn (S n) (x :: firstn (S n) l) = firstn (S n) (x :: l).
Proof.
  cbn [firstn]. f_equal.
  rewrite firstn_firstn. f_equal. lia.
Qed.

Lemma firstn_full_drops_last {A : Type} (n : nat) (x : A) (l : list A) :
  length l = S n -> firstn (S n) (x :: l) = x :: removelast l.
Proof.
  intros Hl. cbn [firstn]. f_equal.
  rewrite removelast_firstn_len, Hl. reflexivity.
Qed.

(** Whatever the storage takes or refuses, a history of at most twenty
    items stays one. *)
Lemma saveAll_bounded (items : list QueryHistoryItem) (sid : string) :
  forall (ls : Storage) (held : list QueryHistoryItem),
    getLocalHistory ls sid = Items held -> length held <= 20 ->
    exists held',
      getLocalHistory (saveAll ls items) sid = Items held' /\ length held' <= 20.
Proof.
  induction items as [|item rest IH]; intros ls held Hh Hlen.
  - exists held. split; assumption.
  - unfold saveAll in *. cbn [fold_left].
    destruct (String.eqb_spec (session_id item) sid) as [<- | Hne].
    + pose proof (saveQuery_same_session ls item held Hh) as Hs.
      destruct (accepts ls _ _ _).
      * apply (IH _ _ Hs). rewrite length_firstn. lia.
      * apply (IH _ _ Hs Hlen).
    + apply (IH _ held); [| exact Hlen].
      rewrite saveQuery_other_session; assumption.
Qed.

Lemma firstn_app_firstn {A : Type} (n : nat) (a b : list A) :
  firstn n (a ++ firstn n b) = firstn n (a ++ b).
Proof.
  rewrite !firstn_app, firstn_firstn. do 2 f_equal. lia.
Qed.

(** When the storage takes every write, the history of a session is
    its saved items, newest first, cut at twenty. *)
Lemma saveAll_newest_first (items : list QueryHistoryItem) (sid : string) :
  forall (ls : Storage) (held : list QueryHistoryItem),
    (forall m k v, accepts ls m k v = true) ->
    getLocalHistory ls sid = Items held -> length held <= 20 ->
    getLocalHistory (saveAll ls items) sid
    = Items (firstn 20 (rev (List.filter (fun i => String.eqb (session_id i) sid) items)
                        ++ held)).
Proof.
  induction items as [|item rest IH]; intros ls held Hacc Hh Hlen.
  - cbn [saveAll fold_left List.filter rev app]. rewrite Hh.
    rewrite firstn_all2 by exact Hlen. reflexivity.
  - unfold saveAll in *. cbn [fold_left List.filter].
    assert (Hacc' : forall m k v, accepts (saveQuery ls item) m k v = true).
    { rewrite saveQuery_accepts. exact Hacc. }
    destruct (String.eqb_spec (session_id item) sid) as [<- | Hne].
    + pose proof (saveQuery_same_session ls item held Hh) as Hs.
      rewrite Hacc in Hs.
      rewrite (IH _ _ Hacc' Hs) by (rewrite length_firstn; lia).
      cbn [rev]. rewrite <- app_assoc. cbn [app].
      rewrite firstn_app_firstn. reflexivity.
    + apply (IH _ held Hacc'); [| exact Hlen].
      rewrite saveQuery_other_session; assumption.
Qed.

(** C8: a missing, empty or unparseable stored history reads as the
    empty list; and from a stored history of at most twenty items, after
    any sequence of saves, [getSessionHistory] returns at most twenty
    items; when the storage takes every write these are the session's
    saved items newest first (the newest at index 0) followed by the
    older ones, cut at twenty; and a save into a full history of twenty
    puts the new item in front and drops the oldest. *)
Theorem history_bounded_newest_first
        (ls : Storage) (sid : string) (held : list QueryHistoryItem)
        (items : list QueryHistoryItem) :
  getSessionHistory ls sid = Items held ->
  length held <= 20 ->
  (forall (ls' : Storage) (sid' : string),
      getItem ls' (history_key sid') = None
      \/ getItem ls' (history_key sid') = Some Blank
      \/ getItem ls' (history_key sid') = Some Malformed ->
      getSessionHistory ls' sid' = Items [])
  /\ (exists held',
        getSessionHistory (saveAll ls items) sid = Items held' /\ length held' <= 20)
  /\ ((forall m k v, accepts ls m k v = true) ->
      getSessionHistory (saveAll ls items) sid
      = Items (firstn 20 (rev (List.filter (fun i => String.eqb (session_id i) sid) items)
                          ++ held)))
  /\ (forall item : QueryHistoryItem,
        session_id item = sid ->
        accepts ls (cells ls) (history_key sid) (Serialized (firstn 20 (item :: held))) = true ->
        getSessionHistory (saveQuery ls item) sid = Items (firstn 20 (item :: held))
        /\ (length held = 20 -> firstn 20 (item :: held) = item :: removelast held)).
Proof.
  unfold getSessionHistory. intros Hh Hlen. repeat split.
  - intros ls' sid' Hcase. unfold getLocalHistory.
    destruct Hcase as [-> | [-> | ->]]; reflexivity.
  - exact (saveAll_bounded items sid ls held Hh Hlen).
  - intros Hacc. exact (saveAll_newest_first items sid ls held Hacc Hh Hlen).
  - match goal with
    | Hsid : session_id _ = sid, Hacc : accepts _ _ _ _ = true |- _ =>
        subst sid; rewrite (saveQuery_same_session _ _ held Hh), Hacc; reflexivity
    end.
  - intros Hfull. apply firstn_full_drops_last. exact Hfull.
Qed.

Lemma history_bounded_newest_first_witness :
  (getSessionHistory Samples.fresh_storage "s1" = Items [] /\ length (@nil QueryHistoryItem) <= 20)
  /\ getSessionHistory (saveAll Samples.fresh_storage Samples.many_items) "s1"
     = Items (firstn 20 (rev Samples.many_items)).
Proof.
  split; [split; [reflexivity | cbn; lia] |].
  destruct (history_bounded_newest_first
              Samples.fresh_storage "s1" [] Samples.many_items eq_refl
              ltac:(cbn; lia)) as (_ & _ & Hall & _).
  rewrite (Hall (fun _ _ _ => eq_refl)). rewrite app_nil_r. reflexivity.
Defined.

(** After twenty-two saves the two oldest queries are gone and the
    newest is at index 0. *)
Example history_after_twenty_two_saves :
  match getSessionHistory (saveAll Samples.fresh_storage Samples.many_items) "s1" with
  | Items held => (length held, query <$> head held, query <$> last held)
  | NotArray => (0, None, None)
  end = (20, Some "V", Some "C").
Proof. vm_compute. reflexivity. Qed.

End History.

(** ** [Login]: failure and skip *)

Section LoginOutcome.
Import Login.

Lemma or_else_truthy (a b : string) : truthy b = true -> truthy (or_else a b) = true.
Proof.
  intros Hb. unfold or_else. destruct (truthy a) eqn:Ha; [exact Ha | exact Hb].
Qed.

(** C7, as stated, fails: when the identity service rejects the
    credentials the form does not continue with an empty token; it
    invokes no success callback at all, and the application keeps
    showing the sign-in form. *)
Lemma rejected_login_does_not_continue :
  ~ In (LoginSuccess "" "")
       (handleSubmit Samples.rejecting_server Samples.roomy Samples.login_form).2
  /\ App.showLogin
       (App.after_login App.initial_auth
          (handleSubmit Samples.rejecting_server Samples.roomy Samples.login_form).2) = true.
Proof. split; [cbn; tauto | reflexivity]. Qed.

(** C7, amended: on an explicit skip the form invokes the success
    callback with an empty token and an empty email, and nothing else,
    and the application then leaves the sign-in form without a user
    identity; when the credentials are not accepted (rejection,
    unreadable body or failed request) the form invokes no callback and
    stores nothing, the sign-in state stays as it was, and the form shows
    a non-empty error message with loading switched off. *)
Theorem skip_continues_failure_stays
        (server : Server) (writes : Writes) (st : State) (a : App.Auth) :
  handleSkip st = (st, [LoginSuccess "" ""])
  /\ App.after_login a (handleSkip st).2
     = {| App.isAuthenticated := App.isAuthenticated a;
          App.authToken := App.authToken a;
          App.userEmail := App.userEmail a;
          App.showLogin := false |}
  /\ App.after_login App.initial_auth (handleSkip st).2
     = {| App.isAuthenticated := false; App.authToken := ""; App.userEmail := "";
          App.showLogin := false |}
  /\ (accepted (fetch_auth server st) = false ->
      (handleSubmit server writes st).2 = []
      /\ App.after_login a (handleSubmit server writes st).2 = a
      /\ truthy (error (handleSubmit server writes st).1) = true
      /\ loading (handleSubmit server writes st).1 = false).
Proof.
  split; [reflexivity |]. split; [reflexivity |]. split; [reflexivity |].
  intros Hrej. unfold handleSubmit.
  destruct (fetch_auth server st) as [message | [|] [detail token | message]];
    try discriminate Hrej; cbn;
    (split; [reflexivity |
             split; [reflexivity |
                     split; [apply or_else_truthy; reflexivity | reflexivity]]]).
Qed.

Lemma skip_continues_failure_stays_witness :
  accepted (fetch_auth Samples.rejecting_server Samples.login_form) = false
  /\ handleSkip Samples.login_form = (Samples.login_form, [LoginSuccess "" ""])
  /\ (handleSubmit Samples.rejecting_server Samples.roomy Samples.login_form).2 = []
  /\ error (handleSubmit Samples.rejecting_server Samples.roomy Samples.login_form).1
     = "Incorrect email or password".
Proof.
  split; [reflexivity |].
  destruct (skip_continues_failure_stays
              Samples.rejecting_server Samples.roomy Samples.login_form App.initial_auth)
    as (Hskip & _ & _ & Hfail).
  destruct (Hfail eq_refl) as (Hnone & _ & _ & _).
  split; [exact Hskip |]. split; [exact Hnone | reflexivity].
Defined.

End LoginOutcome.

(** ** ConversationStore *)

Section Conversation.
Import Core.

Lemma window_Append (store : gmap string (list Message)) (uid : string) (m : Message) :
  window (Append store uid m) uid = window store uid ++ [m].
Proof. unfold Append, window at 1. rewrite lookup_insert_eq. reflexivity. Qed.

Lemma window_append_all (messages : list Message) (uid : string) :
  forall store : gmap string (list Message),
    window (append_all store uid messages) uid = window store uid ++ messages.
Proof.
  induction messages as [|m rest IH]; intros store.
  - rewrite app_nil_r. reflexivity.
  - unfold append_all in *. cbn [fold_left].
    rewrite IH, window_Append, <- app_assoc. reflexivity.
Qed.

Lemma window_empty (uid : string) : window ∅ uid = [].
Proof. unfold window. rewrite lookup_empty. reflexivity. Qed.

Lemma last_messages_length (n : nat) (messages : list Message) :
  length (last_messages n messages) = Nat.min n (length messages).
Proof. unfold last_messages. rewrite length_drop. lia. Qed.

Lemma last_messages_suffix (n : nat) (messages : list Message) :
  take (length messages - n) messages ++ last_messages n messages = messages.
Proof. apply take_drop. Qed.

(** Reading the window initialises it without changing what it holds. *)
Lemma window_RecentWindow (store : gmap string (list Message)) (uid : string)
      (n : option nat) (user : string) :
  window (RecentWindow store uid n).1 user = window store user.
Proof.
  unfold RecentWindow. cbn [fst]. unfold window at 1.
  destruct (decide (uid = user)) as [-> | Hne].
  - rewrite lookup_insert_eq. reflexivity.
  - rewrite lookup_insert_ne by exact Hne. reflexivity.
Qed.

(** C6: for every user and window size n (5 by default),
    [RecentWindow] returns the last min(n, total) messages of the user,
    oldest first: a suffix of what was appended; after eight appended
    messages the default window is exactly the last five, after two it
    is exactly those two; and for a never-seen user it is empty, the
    window being initialised rather than an error raised. *)
Theorem recent_window_is_last_messages
        (store : gmap string (list Message)) (uid : string) (n : option nat)
        (messages : list Message) :
  (RecentWindow (append_all store uid messages) uid n).2
  = last_messages (default 5 n) (window store uid ++ messages)
  /\ length (RecentWindow (append_all store uid messages) uid n).2
     = Nat.min (default 5 n) (length (window store uid ++ messages))
  /\ (exists older,
        window store uid ++ messages
        = older ++ (RecentWindow (append_all store uid messages) uid n).2)
  /\ (forall m1 m2 m3 m4 m5 m6 m7 m8 : Message,
        (RecentWindow (append_all ∅ uid [m1; m2; m3; m4; m5; m6; m7; m8]) uid None).2
        = [m4; m5; m6; m7; m8])
  /\ (forall m1 m2 : Message,
        (RecentWindow (append_all ∅ uid [m1; m2]) uid None).2 = [m1; m2])
  /\ (store !! uid = None -> RecentWindow store uid n = (<[uid := []]> store, [])).
Proof.
  assert (Hw : forall s l k, (RecentWindow (append_all s uid l) uid k).2
                             = last_messages (default 5 k) (window s uid ++ l)).
  { intros s l k. unfold RecentWindow. cbn [snd]. rewrite window_append_all. reflexivity. }
  repeat split.
  - apply Hw.
  - rewrite Hw. apply last_messages_length.
  - rewrite Hw. eexists. symmetry. apply last_messages_suffix.
  - intros. rewrite Hw, window_empty. reflexivity.
  - intros. rewrite Hw, window_empty. reflexivity.
  - intros Hnone. unfold RecentWindow, window. rewrite Hnone. reflexivity.
Qed.

Lemma recent_window_is_last_messages_witness :
  (∅ : gmap string (list Message)) !! "u9" = None
  /\ RecentWindow ∅ "u9" None = (<["u9" := []]> ∅, [])
  /\ (RecentWindow (append_all ∅ "u1" Samples.eight_messages) "u1" (Some 5)).2
     = drop 3 Samples.eight_messages.
Proof.
  split; [reflexivity |].
  destruct (recent_window_is_last_messages ∅ "u9" None []) as (_ & _ & _ & _ & _ & Hnew).
  split; [exact (Hnew eq_refl) |].
  destruct (recent_window_is_last_messages ∅ "u1" (Some 5) Samples.eight_messages)
    as (Hlast & _).
  rewrite Hlast. reflexivity.
Defined.

End Conversation.

(** ** PreferenceAggregator *)

Section Preferences.
Import Core.

Lemma increment_nonempty (name : string) (counts : list (string * nat)) :
  increment name counts <> [].
Proof.
  destruct counts as [|[k v] rest]; cbn; [discriminate |].
  destruct (String.eqb k name); discriminate.
Qed.

Lemma increment_keys (name : string) (counts : list (string * nat)) (k : string) :
  k ∈ (increment name counts).*1 -> k = name \/ k ∈ counts.*1.
Proof.
  induction counts as [|[k' v] rest IH]; cbn.
  - intros H%list_elem_of_singleton. left. exact H.
  - destruct (String.eqb_spec k' name) as [-> | Hne]; cbn.
    + intros H. right. exact H.
    + intros [-> | H]%elem_of_cons.
      * right. left.
      * destruct (IH H) as [-> | Hin]; [left; reflexivity | right; right; exact Hin].
Qed.

(** Recording keeps the persona names of the mapping distinct. *)
Lemma increment_NoDup (name : string) (counts : list (string * nat)) :
  NoDup counts.*1 -> NoDup (increment name counts).*1.
Proof.
  induction counts as [|[k v] rest IH]; cbn; intros Hnd.
  - apply NoDup_singleton.
  - apply NoDup_cons in Hnd as [Hk Hrest].
    destruct (String.eqb_spec k name) as [-> | Hne]; cbn.
    + apply NoDup_cons. split; assumption.
    + apply NoDup_cons. split; [| exact (IH Hrest)].
      intros Hin. apply increment_keys in Hin as [-> | Hin]; [congruence | contradiction].
Qed.

Lemma max_count_cons (kv : string * nat) (rest : list (string * nat)) :
  max_count (kv :: rest) = Nat.max kv.2 (max_count rest).
Proof. reflexivity. Qed.

Lemma count_of_bound (counts : list (string * nat)) (name : string) :
  count_of name counts <= max_count counts.
Proof.
  induction counts as [|[k v] rest IH]; [reflexivity |].
  rewrite max_count_cons. cbn [count_of snd].
  destruct (String.eqb k name); lia.
Qed.

Lemma max_count_attained (counts : list (string * nat)) :
  counts <> [] -> exists kv, kv ∈ counts /\ kv.2 = max_count counts.
Proof.
  induction counts as [|kv rest IH]; [congruence |]. intros _.
  destruct rest as [|kv' rest'].
  - exists kv. split; [left | rewrite max_count_cons; cbn; lia].
  - destruct (IH ltac:(discriminate)) as (best & Hin & Hbest).
    rewrite (max_count_cons kv).
    destruct (Nat.max_spec kv.2 (max_count (kv' :: rest'))) as [[_ ->] | [_ ->]].
    + exists best. split; [right; exact Hin | exact Hbest].
    + exists kv. split; [left | reflexivity].
Qed.

Lemma elem_of_leaders (counts : list (string * nat)) (name : string) :
  name ∈ leaders counts <-> (name, max_count counts) ∈ counts.
Proof.
  unfold leaders. rewrite list_elem_of_fmap. split.
  - intros ([k v] & -> & Hin). apply list_elem_of_In, filter_In in Hin as [Hin Hv].
    cbn in Hv. apply Nat.eqb_eq in Hv. cbn. subst v. apply list_elem_of_In. exact Hin.
  - intros Hin. exists (name, max_count counts). split; [reflexivity |].
    apply list_elem_of_In, filter_In. split; [apply list_elem_of_In, Hin |].
    cbn. apply Nat.eqb_refl.
Qed.

Lemma leaders_nonempty (counts : list (string * nat)) :
  counts <> [] -> leaders counts <> [].
Proof.
  intros Hne. destruct (max_count_attained counts Hne) as ([k v] & Hin & Hv).
  cbn in Hv. subst v. apply elem_of_leaders in Hin.
  intros E. rewrite E in Hin. inversion Hin.
Qed.

Lemma count_of_NoDup (counts : list (string * nat)) (k : string) (v : nat) :
  NoDup counts.*1 -> (k, v) ∈ counts -> count_of k counts = v.
Proof.
  induction counts as [|[k' v'] rest IH]; [intros _ H; inversion H |].
  cbn. intros [Hk Hrest]%NoDup_cons [[= -> ->] | Hin]%elem_of_cons.
  - rewrite String.eqb_refl. reflexivity.
  - destruct (String.eqb_spec k' k) as [-> | Hne]; [| exact (IH Hrest Hin)].
    exfalso. apply Hk. apply list_elem_of_fmap. exists (k, v). split; [reflexivity | exact Hin].
Qed.

(** The recomputed preference is always one of the leaders. *)
Lemma recompute_preferred_leader (previous : option string) (counts : list (string * nat)) :
  counts <> [] ->
  exists name, recompute_preferred previous counts = Some name /\ name ∈ leaders counts.
Proof.
  intros Hne. pose proof (leaders_nonempty counts Hne) as Hl.
  unfold recompute_preferred.
  destruct previous as [p |].
  - destruct (decide (p ∈ leaders counts)) as [Hin | Hout].
    + exists p. rewrite bool_decide_eq_true_2 by exact Hin. split; [reflexivity | exact Hin].
    + rewrite bool_decide_eq_false_2 by exact Hout.
      destruct (leaders counts) as [|first others]; [congruence |].
      exists first. split; [reflexivity | left].
  - destruct (leaders counts) as [|first others]; [congruence |].
    exists first. split; [reflexivity | left].
Qed.

(** C2: after every [RecordQuery] update of a profile,
    [preferredPersona] is a persona whose count is the maximum of
    [personaCounts]; under a tie the previously preferred persona is
    kept when it is among the leaders, and otherwise the first-recorded
    leader is chosen; in particular, recording A,B,A,B,A,B for a new
    user leaves [preferredPersona] equal to A after every step. *)
Theorem preferred_persona_is_stable_leader
        (p : PreferenceProfile) (persona : string) (topics : gset string) (now : nat) :
  NoDup (personaCounts p).*1 ->
  (exists name,
      preferredPersona (record_query p persona topics now) = Some name
      /\ count_of name (personaCounts (record_query p persona topics now))
         = max_count (personaCounts (record_query p persona topics now))
      /\ (forall other,
            count_of other (personaCounts (record_query p persona topics now))
            <= count_of name (personaCounts (record_query p persona topics now)))
      /\ (forall previous,
            preferredPersona p = Some previous ->
            previous ∈ leaders (personaCounts (record_query p persona topics now)) ->
            name = previous)
      /\ ((forall previous,
              preferredPersona p = Some previous ->
              previous ∉ leaders (personaCounts (record_query p persona topics now))) ->
          head (leaders (personaCounts (record_query p persona topics now))) = Some name))
  /\ (forall uid : string,
        preferred_after_each ∅ uid ["A"; "B"; "A"; "B"; "A"; "B"] now
        = [Some "A"; Some "A"; Some "A"; Some "A"; Some "A"; Some "A"]).
Proof.
  intros Hnd. split.
  - cbn [record_query preferredPersona personaCounts].
    set (counts := increment persona (personaCounts p)).
    assert (Hnd' : NoDup counts.*1) by (apply increment_NoDup, Hnd).
    destruct (recompute_preferred_leader (preferredPersona p) counts
                (increment_nonempty _ _)) as (name & Hname & Hlead).
    exists name. split; [exact Hname |].
    pose proof (count_of_NoDup counts name _ Hnd' (proj1 (elem_of_leaders _ _) Hlead)) as Hc.
    split; [exact Hc |]. split; [| split].
    + intros other. rewrite Hc. apply count_of_bound.
    + intros previous Hprev Hin. unfold recompute_preferred in Hname.
      rewrite Hprev, bool_decide_eq_true_2 in Hname by exact Hin. congruence.
    + intros Hout. unfold recompute_preferred in Hname.
      destruct (preferredPersona p) as [previous |]; [| exact Hname].
      rewrite bool_decide_eq_false_2 in Hname by (apply Hout; reflexivity).
      exact Hname.
  - intros uid. 
    cbn [preferred_after_each]. unfold RecordQuery, GetProfile.
    repeat (rewrite ?lookup_insert_eq, ?lookup_empty; cbn [default record_query personaCounts preferredPersona empty_profile increment]).
    vm_compute. reflexivity.
Qed.

Lemma preferred_persona_is_stable_leader_witness :
  NoDup (personaCounts (record_query (empty_profile "u1") "A" ∅ 0)).*1
  /\ preferredPersona
       (record_query (record_query (empty_profile "u1") "A" ∅ 0) "B" ∅ 1) = Some "A".
Proof.
  assert (Hnd : NoDup (personaCounts (record_query (empty_profile "u1") "A" ∅ 0)).*1)
    by exact (increment_NoDup "A" [] (NoDup_nil_2 (A := string))).
  split; [exact Hnd |].
  destruct (proj1 (preferred_persona_is_stable_leader
                     (record_query (empty_profile "u1") "A" ∅ 0) "B" ∅ 1 Hnd))
    as (name & Hname & _ & _ & Hkeep & _).
  rewrite Hname. f_equal. apply Hkeep; [reflexivity |].
  apply elem_of_leaders. left.
Defined.

End Preferences.

(** ** QueryOrchestrator *)

Section Orchestrator.
Import Core.

(** What a failed [Submit] leaves: the preferences as they were, and a
    conversation store that differs at most by an initialised window. *)
Lemma Submit_failed (collaborator : Collaborator) (chat : bool) (now : nat)
      (question persona : string) (uid : option string) (st : State) (reason : string) :
  verdict (collaborator question persona (context_for st uid)) = inr reason ->
  Submit collaborator chat now question persona uid st
  = {| final := {| preferences := preferences st;
                   conversations :=
                     match uid with
                     | Some u => (RecentWindow (conversations st) u (Some 5)).1
                     | None => conversations st
                     end |};
       events := [Progress "retrieving evidence" now]
                 ++ map (fun label => Progress label now)
                        (stages (collaborator question persona (context_for st uid)))
                 ++ [Failure reason];
       phase := Failed |}.
Proof.
  intros Hv. unfold Submit. destruct uid as [u |]; cbn [context_for] in Hv |- *.
  - destruct (RecentWindow (conversations st) u (Some 5)) as [store context] eqn:E.
    cbn [fst snd] in *. rewrite Hv. reflexivity.
  - rewrite Hv. reflexivity.
Qed.

(** C3: when the synthesis collaborator fails, [Submit] leaves every
    user's [totalQueries], [personaCounts] and [topicCounts] and the
    length of every conversation window as they were, and the session's
    events are progress events closed by the single [Failure] event. *)
Theorem failed_submit_changes_nothing
        (collaborator : Collaborator) (chat : bool) (now : nat)
        (question persona : string) (uid : option string) (st : State) (reason : string) :
  verdict (collaborator question persona (context_for st uid)) = inr reason ->
  (forall user : string,
      totalQueries
        (GetProfile (preferences (final (Submit collaborator chat now question persona uid st))) user)
      = totalQueries (GetProfile (preferences st) user)
      /\ personaCounts
           (GetProfile (preferences (final (Submit collaborator chat now question persona uid st))) user)
         = personaCounts (GetProfile (preferences st) user)
      /\ topicCounts
           (GetProfile (preferences (final (Submit collaborator chat now question persona uid st))) user)
         = topicCounts (GetProfile (preferences st) user)
      /\ length
           (window (conversations (final (Submit collaborator chat now question persona uid st))) user)
         = length (window (conversations st) user))
  /\ (exists progress,
        events (Submit collaborator chat now question persona uid st)
        = progress ++ [Failure reason]
        /\ forallb (fun e => negb (is_terminal_event e)) progress = true)
  /\ phase (Submit collaborator chat now question persona uid st) = Failed.
Proof.
  intros Hv. rewrite (Submit_failed _ _ _ _ _ _ _ _ Hv). cbn [final events phase preferences conversations].
  split; [| split; [| reflexivity]].
  - intros user. repeat split.
    destruct uid as [u |]; [| reflexivity].
    rewrite window_RecentWindow. reflexivity.
  - exists ([Progress "retrieving evidence" now]
            ++ map (fun label => Progress label now)
                   (stages (collaborator question persona (context_for st uid)))).
    split; [rewrite <- app_assoc; reflexivity |].
    cbn. apply forallb_forall. intros e He. apply in_map_iff in He as (l & <- & _).
    reflexivity.
Qed.

Lemma failed_submit_changes_nothing_witness :
  verdict (Samples.timing_out "How does that affect plants?" "Manager"
             (context_for Samples.known_state (Some "u1"))) = inr "Timeout"
  /\ totalQueries
       (GetProfile
          (preferences
             (final (Submit Samples.timing_out true 9 "How does that affect plants?"
                       "Manager" (Some "u1") Samples.known_state))) "u1") = 3
  /\ length
       (window
          (conversations
             (final (Submit Samples.timing_out true 9 "How does that affect plants?"
                       "Manager" (Some "u1") Samples.known_state))) "u1") = 2.
Proof.
  split; [reflexivity |].
  destruct (failed_submit_changes_nothing
              Samples.timing_out true 9 "How does that affect plants?" "Manager"
              (Some "u1") Samples.known_state "Timeout" eq_refl) as (Hsame & _).
  destruct (Hsame "u1") as (Htotal & _ & _ & Hlen).
  rewrite Htotal, Hlen. split; vm_compute; reflexivity.
Defined.

End Orchestrator.

(** * Further properties of the client code *)

(** ** [APIClient.streamQuery]: how often and with what it calls back *)

Section StreamQueryCalls.
Import APIClient.

Lemma progress_not_complete (chunks : list Call) (r : AgentResponse) :
  forallb is_progress chunks = true -> ~ In (OnComplete r) chunks.
Proof.
  intros Hp Hin. rewrite forallb_forall in Hp. specialize (Hp _ Hin). discriminate Hp.
Qed.

Lemma filter_progress_none (keep : Call -> bool) (chunks : list Call) :
  (forall c, is_progress c = true -> keep c = false) ->
  forallb is_progress chunks = true ->
  List.filter keep chunks = [].
Proof.
  intros Hk. induction chunks as [|c rest IH]; [reflexivity |].
  cbn. intros [Hc Hrest]%andb_prop. rewrite (Hk c Hc). exact (IH Hrest).
Qed.

(** The trace of [streamQuery]: chunks, then one of three endings. *)
Lemma streamQuery_shape (b : Backend) (request : QueryRequest) (h : Handlers) :
  exists chunks ending,
    calls (streamQuery b request h) = chunks ++ ending
    /\ forallb is_progress chunks = true
    /\ ((exists error, ending = [OnError error])
        \/ (exists response,
               query b request = Ok response
               /\ (ending = [OnComplete response]
                   \/ exists error, ending = [OnComplete response; OnError error]))).
Proof.
  unfold streamQuery. destruct (query b request) as [response | error].
  2:{ exists [], [OnError error]. repeat split. left. eauto. }
  destruct (stream_words_progress h (split_space (answer response)) "" [])
    as (chunks & E & Hp).
  destruct (stream_words h (split_space (answer response)) "" [])
    as [trace thrown]; cbn in E; subst trace.
  exists chunks.
  destruct thrown as [error |]; [| destruct (h chunks (OnComplete response)) as [error |]];
    cbn [calls catch_onError].
  - exists [OnError error]. repeat split; [exact Hp |]. left. eauto.
  - exists [OnComplete response; OnError error]. rewrite <- app_assoc.
    repeat split; [exact Hp |]. right. eauto.
  - exists [OnComplete response]. repeat split; [exact Hp |]. right. eauto.
Qed.

(** X1: [onComplete] is only ever handed the response that [query]
    returned, and each of [onComplete] and [onError] is invoked at most
    once, whatever the callbacks do. *)
Theorem streamQuery_terminal_calls
        (b : Backend) (request : QueryRequest) (h : Handlers) :
  (forall response,
      In (OnComplete response) (calls (streamQuery b request h)) ->
      query b request = Ok response)
  /\ length (List.filter (fun c => match c with OnComplete _ => true | _ => false end)
                         (calls (streamQuery b request h))) <= 1
  /\ length (List.filter (fun c => match c with OnError _ => true | _ => false end)
                         (calls (streamQuery b request h))) <= 1.
Proof.
  destruct (streamQuery_shape b request h) as (chunks & ending & -> & Hp & Hend).
  assert (Hc : List.filter (fun c => match c with OnComplete _ => true | _ => false end)
                           chunks = []).
  { apply filter_progress_none; [| exact Hp]. intros []; cbn; congruence. }
  assert (He : List.filter (fun c => match c with OnError _ => true | _ => false end)
                           chunks = []).
  { apply filter_progress_none; [| exact Hp]. intros []; cbn; congruence. }
  rewrite !List.filter_app, Hc, He. cbn [app].
  split.
  - intros r [Hin | Hin]%in_app_or; [destruct (progress_not_complete _ _ Hp Hin) |].
    destruct Hend as [(error & ->) | (response & Hq & [-> | (error & ->)])];
      cbn in Hin; intuition congruence.
  - destruct Hend as [(error & ->) | (response & Hq & [-> | (error & ->)])];
      cbn; lia.
Qed.

Lemma streamQuery_terminal_calls_witness :
  In (OnComplete Samples.agent_response)
     (calls (streamQuery Samples.agent_backend Samples.agent_request Samples.quiet))
  /\ query Samples.agent_backend Samples.agent_request = Ok Samples.agent_response.
Proof.
  assert (Hin : In (OnComplete Samples.agent_response)
                   (calls (streamQuery Samples.agent_backend Samples.agent_request
                             Samples.quiet))).
  { cbn. tauto. }
  split; [exact Hin |].
  exact (proj1 (streamQuery_terminal_calls
                  Samples.agent_backend Samples.agent_request Samples.quiet) _ Hin).
Defined.

Lemma split_space_length (s : string) :
  length (split_space s) = S (count_spaces s).
Proof.
  induction s as [|c s IH]; [reflexivity |].
  cbn [split_space count_spaces]. destruct (Ascii.eqb c space).
  - cbn. rewrite IH. reflexivity.
  - destruct (split_space s) as [|w ws]; cbn in *; lia.
Qed.

Lemma stream_words_count (h : Handlers) (words : list string) :
  (forall trace call, h trace call = None) ->
  forall (acc : string) (trace : list Call),
  exists chunks,
    stream_words h words acc trace = (trace ++ chunks, None)
    /\ length chunks = length words
    /\ forallb is_progress chunks = true.
Proof.
  intros Hh. induction words as [|word rest IH]; intros acc trace; cbn [stream_words].
  - exists []. rewrite app_nil_r. repeat split.
  - rewrite Hh.
    destruct (IH (acc +:+ word +:+ " ") (trace ++ [OnChunk (trim (acc +:+ word +:+ " "))]))
      as (chunks & E & Hl & Hp).
    exists (OnChunk (trim (acc +:+ word +:+ " ")) :: chunks).
    rewrite E, <- app_assoc. cbn. rewrite Hl. repeat split. exact Hp.
Qed.

(** X2: with a successful query and callbacks that return normally,
    [onChunk] is invoked once per word: one more time than the answer
    has spaces. *)
Theorem streamQuery_chunk_count
        (b : Backend) (request : QueryRequest) (h : Handlers) (response : AgentResponse) :
  query b request = Ok response ->
  (forall trace call, h trace call = None) ->
  length (List.filter is_progress (calls (streamQuery b request h)))
  = S (count_spaces (answer response)).
Proof.
  intros Hq Hh. unfold streamQuery. rewrite Hq.
  destruct (stream_words_count h (split_space (answer response)) Hh "" [])
    as (chunks & E & Hl & Hp).
  rewrite E, Hh. cbn [calls app]. rewrite List.filter_app. cbn.
  rewrite length_app. cbn. rewrite Nat.add_0_r.
  rewrite <- split_space_length, <- Hl. f_equal.
  clear -Hp. induction chunks as [|c rest IH]; [reflexivity |].
  cbn in Hp |- *. apply andb_prop in Hp as [Hc Hrest]. rewrite Hc. f_equal. exact (IH Hrest).
Qed.

Lemma streamQuery_chunk_count_witness :
  query Samples.agent_backend Samples.agent_request = Ok Samples.agent_response
  /\ length (List.filter is_progress
               (calls (streamQuery Samples.agent_backend Samples.agent_request Samples.quiet)))
     = 4.
Proof.
  split; [reflexivity |].
  exact (streamQuery_chunk_count Samples.agent_backend Samples.agent_request Samples.quiet
           Samples.agent_response eq_refl (fun _ _ => eq_refl)).
Defined.

End StreamQueryCalls.

(** ** [extractSection], [extractConcepts] and the legacy transform *)

Section Sections.
Import EnhancedAPIClient.

Lemma match_keyword_split (keyword s matched rest : string) :
  match_keyword keyword s = Some (matched, rest) ->
  s = matched +:+ rest /\ String.length matched = String.length keyword.
Proof.
  revert s matched rest. induction keyword as [|k keyword IH]; intros s matched rest.
  - destruct s; cbn; intros [= <- <-]; split; reflexivity.
  - destruct s as [|c s]; cbn [match_keyword]; [discriminate |].
    destruct (Ascii.eqb (canonicalize k) (canonicalize c)); [| discriminate].
    destruct (match_keyword keyword s) as [[m r] |] eqn:E; [| discriminate].
    intros [= <- <-]. destruct (IH _ _ _ E) as [-> Hl].
    split; [reflexivity | cbn; rewrite Hl; reflexivity].
Qed.

(** What the keyword matched does not depend on what follows it. *)
Lemma match_keyword_prefix (keyword s matched rest : string) :
  match_keyword keyword s = Some (matched, rest) ->
  forall rest', match_keyword keyword (matched +:+ rest') = Some (matched, rest').
Proof.
  revert s matched rest. induction keyword as [|k keyword IH]; intros s matched rest.
  - destruct s; cbn; intros [= <- <-] rest'; destruct rest'; reflexivity.
  - destruct s as [|c s]; cbn [match_keyword]; [discriminate |].
    destruct (Ascii.eqb (canonicalize k) (canonicalize c)) eqn:Ec; [| discriminate].
    destruct (match_keyword keyword s) as [[m r] |] eqn:E; [| discriminate].
    intros [= <- <-] rest'. rewrite string_app_cons. cbn [match_keyword].
    rewrite Ec, (IH _ _ _ E rest'). reflexivity.
Qed.

Lemma match_to_dot_split (s matched rest : string) :
  match_to_dot s = Some (matched, rest) ->
  s = matched +:+ rest /\ includes matched "." = true.
Proof.
  revert matched rest. induction s as [|c s IH]; intros matched rest; [discriminate |].
  cbn [match_to_dot]. destruct (Ascii.eqb_spec c dot) as [-> | Hc].
  - intros [= <- <-]. split; reflexivity.
  - destruct (match_to_dot s) as [[m r] |]; [| discriminate].
    intros [= <- <-]. destruct (IH m r eq_refl) as [-> Hin].
    split; [reflexivity |]. cbn [includes]. rewrite Hin. apply orb_true_r.
Qed.

Lemma match_to_break_cons (c d : ascii) (s : string) :
  match_to_break (String c (String d s))
  = if Ascii.eqb c newline && Ascii.eqb d newline then ""
    else String c (match_to_break (String d s)).
Proof. reflexivity. Qed.

Lemma match_to_break_split (s : string) :
  exists rest,
    s = match_to_break s +:+ rest
    /\ (rest = "" \/ startsWith rest (String newline (String newline "")) = true).
Proof.
  induction s as [|c s IH].
  - exists "". split; [reflexivity | left; reflexivity].
  - destruct IH as (rest & Hs & Hrest).
    destruct s as [|d s'].
    + exists "". split; [reflexivity | left; reflexivity].
    + rewrite match_to_break_cons.
      destruct (Ascii.eqb_spec c newline) as [-> | Hc];
        [destruct (Ascii.eqb_spec d newline) as [-> | Hd] |]; cbn [andb].
      * exists (String newline (String newline s')). split; [reflexivity |].
        right. destruct s'; reflexivity.
      * exists rest. split; [| exact Hrest].
        rewrite string_app_cons. f_equal. exact Hs.
      * exists rest. split; [| exact Hrest].
        rewrite string_app_cons. f_equal. exact Hs.
Qed.

Lemma includes_app_r (a b p : string) : includes b p = true -> includes (a +:+ b) p = true.
Proof.
  intros Hb. induction a as [|c a IH]; [exact Hb |].
  rewrite string_app_cons. cbn [includes]. rewrite IH. apply orb_true_r.
Qed.

Lemma includes_unfold (s p : string) :
  includes s p
  = startsWith s p || match s with "" => false | String _ rest => includes rest p end.
Proof. destruct s; reflexivity. Qed.

Lemma startsWith_app (p a b : string) :
  startsWith a p = true -> startsWith (a +:+ b) p = true.
Proof.
  revert a. induction p as [|x p IH]; intros a.
  - intros _. destruct (a +:+ b); reflexivity.
  - destruct a as [|y a]; [discriminate |].
    rewrite string_app_cons. cbn [startsWith].
    intros [-> H]%andb_prop. cbn. exact (IH a H).
Qed.

Lemma includes_app_l (a b p : string) :
  includes a p = true -> includes (a +:+ b) p = true.
Proof.
  induction a as [|c a IH]; rewrite includes_unfold.
  - rewrite orb_false_r. intros H. rewrite includes_unfold.
    rewrite (startsWith_app p "" b H). reflexivity.
  - intros [H | H]%orb_prop; rewrite string_app_cons, includes_unfold.
    + rewrite <- string_app_cons, (startsWith_app p _ b H). reflexivity.
    + rewrite (IH H). apply orb_true_r.
Qed.

Lemma match_here_sound (keyword s found : string) :
  match_here keyword s = Some found ->
  exists after,
    s = found +:+ after
    /\ (after = "" \/ startsWith after (String newline (String newline "")) = true)
    /\ (exists matched rest, match_keyword keyword found = Some (matched, rest))
    /\ includes found "." = true.
Proof.
  unfold match_here.
  destruct (match_keyword keyword s) as [[m1 r1] |] eqn:E1; [| discriminate].
  destruct (match_to_dot r1) as [[m2 r2] |] eqn:E2; [| discriminate].
  intros [= <-].
  destruct (match_keyword_split _ _ _ _ E1) as [-> _].
  destruct (match_to_dot_split _ _ _ E2) as [-> Hdot].
  destruct (match_to_break_split r2) as (after & Hr2 & Hafter).
  exists after. repeat split.
  - rewrite !string_app_assoc. do 2 f_equal. exact Hr2.
  - exact Hafter.
  - exists m1, (m2 +:+ match_to_break r2). exact (match_keyword_prefix _ _ _ _ E1 _).
  - apply includes_app_r, includes_app_l, Hdot.
Qed.

(** X3: for a plain keyword (letters, digits and spaces, as the six the
    client uses), a section found by [extractSection] is a piece of the
    text, taken as it stands: it begins with the keyword in any letter
    case, holds a full stop, and ends at a blank line or at the end of
    the text. *)
Theorem extractSection_sound (text keyword found : string) :
  plain_keyword keyword = true ->
  extractSection text keyword = Some found ->
  exists before after,
    text = before +:+ found +:+ after
    /\ (after = "" \/ startsWith after (String newline (String newline "")) = true)
    /\ (exists matched rest,
           match_keyword keyword found = Some (matched, rest)
           /\ String.length matched = String.length keyword)
    /\ includes found "." = true.
Proof.
  intros _. induction text as [|c text IH]; cbn [extractSection].
  - destruct (match_here keyword "") eqn:E; [| discriminate]. intros [= <-].
    destruct (match_here_sound _ _ _ E) as (after & Hs & Ha & (m & r & Hk) & Hd).
    exists "", after. repeat split; try assumption.
    exists m, r. split; [exact Hk | exact (proj2 (match_keyword_split _ _ _ _ Hk))].
  - destruct (match_here keyword (String c text)) eqn:E.
    + intros [= <-].
      destruct (match_here_sound _ _ _ E) as (after & Hs & Ha & (m & r & Hk) & Hd).
      exists "", after. repeat split; try assumption.
      exists m, r. split; [exact Hk | exact (proj2 (match_keyword_split _ _ _ _ Hk))].
    + intros H. destruct (IH H) as (before & after & Ht & Ha & Hk & Hd).
      exists (String c before), after. rewrite string_app_cons, <- Ht.
      repeat split; assumption.
Qed.

Lemma extractSection_sound_witness :
  plain_keyword "FINDINGS" = true
  /\ extractSection "Studies agree. Key findings: bone loss. More work" "FINDINGS"
     = Some "findings: bone loss. More work"
  /\ exists before after,
      "Studies agree. Key findings: bone loss. More work"
      = before +:+ "findings: bone loss. More work" +:+ after.
Proof.
  split; [reflexivity |]. split; [reflexivity |].
  destruct (extractSection_sound
              "Studies agree. Key findings: bone loss. More work" "FINDINGS"
              "findings: bone loss. More work" eq_refl eq_refl)
    as (before & after & Ht & _).
  exists before, after. exact Ht.
Defined.

End Sections.

Section LegacyFallback.
Import EnhancedAPIClient.

Lemma match_to_dot_none (s : string) :
  includes s "." = false -> match_to_dot s = None.
Proof.
  induction s as [|c s IH]; [reflexivity |].
  rewrite includes_unfold. intros [Hhead Htail]%orb_false_elim.
  cbn [match_to_dot]. cbn in Hhead.
  destruct (Ascii.eqb_spec c dot) as [-> | Hc].
  - cbn in Hhead. destruct s; discriminate Hhead.
  - rewrite (IH Htail). reflexivity.
Qed.

Lemma includes_suffix_false (a b p : string) :
  includes (a +:+ b) p = false -> includes b p = false.
Proof.
  intros H. destruct (includes b p) eqn:E; [| reflexivity].
  rewrite (includes_app_r a b p E) in H. discriminate H.
Qed.

Lemma match_here_no_dot (keyword s : string) :
  includes s "." = false -> match_here keyword s = None.
Proof.
  intros H. unfold match_here.
  destruct (match_keyword keyword s) as [[m r] |] eqn:E; [| reflexivity].
  destruct (match_keyword_split _ _ _ _ E) as [-> _].
  rewrite (match_to_dot_none r (includes_suffix_false _ _ _ H)). reflexivity.
Qed.

Lemma extractSection_no_dot (text keyword : string) :
  includes text "." = false -> extractSection text keyword = None.
Proof.
  induction text as [|c text IH]; intros H; cbn [extractSection];
    rewrite (match_here_no_dot _ _ H); [reflexivity |].
  apply IH. exact (includes_suffix_false (String c "") text "." H).
Qed.

Lemma substring0_prefix (n : nat) (s : string) :
  exists rest, s = substring0 n s +:+ rest
               /\ String.length (substring0 n s) = Nat.min n (String.length s).
Proof.
  revert s. induction n as [|n IH]; intros s.
  - exists s. split; reflexivity.
  - destruct s as [|c s]; [exists ""; split; reflexivity |].
    destruct (IH s) as (rest & Hs & Hl). exists rest.
    cbn [substring0]. rewrite string_app_cons, <- Hs. cbn. rewrite Hl.
    split; reflexivity.
Qed.

(** X4: a legacy answer without any full stop has no sections at all: the
    consensus is the beginning of the answer, at most 300 code units
    of it, and contradiction and gap are the two fixed sentences. *)
Theorem legacy_answer_without_full_stop
        (legacyData : ResponseData) (a : string) :
  answer legacyData = Some a ->
  a <> "" ->
  includes a "." = false ->
  exists rest,
    brief (transformLegacyResponse legacyData)
    = Some {| consensus := substring0 300 a;
              contradiction := default_contradiction;
              gap := default_gap |}
    /\ a = substring0 300 a +:+ rest
    /\ String.length (substring0 300 a) = Nat.min 300 (String.length a).
Proof.
  intros Ha Hne Hdot.
  destruct (substring0_prefix 300 a) as (rest & Hs & Hl).
  exists rest. split; [| split; assumption].
  unfold transformLegacyResponse. cbn [brief]. rewrite Ha.
  assert (Hor : or_text (Some a) "" = a).
  { unfold or_text, or_else. destruct a; [congruence | reflexivity]. }
  rewrite Hor, !(extractSection_no_dot a _ Hdot). reflexivity.
Qed.

Lemma legacy_answer_without_full_stop_witness :
  exists rest,
    brief (transformLegacyResponse
             {| answer := Some "Microgravity weakens bone"; publications := None;
                intermediate_steps := None; brief := None; evidence := None;
                highlighted_concepts := None; follow_up_questions := None;
                agent_logs := None |})
    = Some {| consensus := "Microgravity weakens bone";
              contradiction := default_contradiction;
              gap := default_gap |}
    /\ "Microgravity weakens bone" = "Microgravity weakens bone" +:+ rest.
Proof.
  destruct (legacy_answer_without_full_stop
              {| answer := Some "Microgravity weakens bone"; publications := None;
                 intermediate_steps := None; brief := None; evidence := None;
                 highlighted_concepts := None; follow_up_questions := None;
                 agent_logs := None |}
              "Microgravity weakens bone" eq_refl ltac:(discriminate) eq_refl)
    as (rest & Hb & Hs & _).
  exists rest. split; [exact Hb | exact Hs].
Defined.

Lemma In_firstn {A : Type} (n : nat) (l : list A) (x : A) :
  In x (firstn n l) -> In x l.
Proof.
  intros H. rewrite <- (firstn_skipn n l). apply in_or_app. left. exact H.
Qed.

Lemma lower_char_idempotent (c : ascii) : lower_char (lower_char c) = lower_char c.
Proof. destruct c as [[] [] [] [] [] [] [] []]; reflexivity. Qed.

Lemma toLowerCase_idempotent (s : string) : toLowerCase (toLowerCase s) = toLowerCase s.
Proof.
  induction s as [|c s IH]; [reflexivity |].
  cbn [toLowerCase]. rewrite lower_char_idempotent, IH. reflexivity.
Qed.

Lemma knownConcepts_lower (concept : string) :
  In concept knownConcepts -> toLowerCase concept = concept.
Proof.
  unfold knownConcepts. cbn [In].
  intros H. repeat (destruct H as [<- | H]; [vm_compute; reflexivity |]). destruct H.
Qed.

(** X5: [extractConcepts] returns at most five concepts, each a known
    concept that occurs in the text when letter case is ignored, none
    twice; and the letter case of the text does not matter. *)
Theorem extractConcepts_known (text : string) :
  length (extractConcepts text) <= 5
  /\ (forall concept,
        In concept (extractConcepts text) ->
        In concept knownConcepts /\ includes (toLowerCase text) concept = true)
  /\ List.NoDup (extractConcepts text)
  /\ extractConcepts (toLowerCase text) = extractConcepts text.
Proof.
  unfold extractConcepts. split; [| split; [| split]].
  - rewrite length_firstn. lia.
  - intros concept H. apply In_firstn, filter_In in H as [Hk Hi].
    rewrite (knownConcepts_lower _ Hk) in Hi. split; assumption.
  - set (l := List.filter _ _).
    assert (Hnd : List.NoDup l).
    { apply List.NoDup_filter. unfold knownConcepts.
      repeat constructor; cbn; intuition discriminate. }
    rewrite <- (firstn_skipn 5 l) in Hnd. exact (List.NoDup_app_remove_r _ _ Hnd).
  - rewrite toLowerCase_idempotent. reflexivity.
Qed.

Lemma extractConcepts_known_witness :
  In "radiation" (extractConcepts "Space RADIATION and Bone Density")
  /\ includes (toLowerCase "Space RADIATION and Bone Density") "radiation" = true.
Proof.
  assert (Hin : In "radiation" (extractConcepts "Space RADIATION and Bone Density")).
  { vm_compute. left. reflexivity. }
  split; [exact Hin |].
  destruct (extractConcepts_known "Space RADIATION and Bone Density") as (_ & Hk & _).
  exact (proj2 (Hk _ Hin)).
Defined.

End LegacyFallback.

(** ** [queryWithStreaming]: one result at most *)

Section OneResult.
Import EnhancedAPIClient.

Lemma completions_snoc_log (trace : list Call) (log : Payload) :
  completions (trace ++ [OnLog log]) = completions trace.
Proof. rewrite completions_app. apply app_nil_r. Qed.

Lemma completions_progress (trace : list Call) :
  forallb is_progress trace = true -> completions trace = [].
Proof.
  induction trace as [|c rest IH]; [reflexivity |].
  destruct c; cbn; [exact IH | discriminate].
Qed.

Lemma dispatch_one_result
      (b : Backend) (request : QueryRequest) (h : Handlers) (events : list SourceEvent) :
  (forall trace result, h trace (OnComplete result) = None) ->
  forall trace,
    completions trace = [] ->
    length (completions (dispatch b request h events trace)) <= 1.
Proof.
  intros Hh. induction events as [|e rest IH]; intros trace Ht.
  - cbn. rewrite Ht. cbn. lia.
  - destruct e as [[d |] |]; cbn [dispatch].
    + unfold onmessage.
      destruct (String.eqb (type d) "log").
      * apply IH. rewrite completions_snoc_log. exact Ht.
      * destruct (String.eqb (type d) "result"); [| exact (IH trace Ht)].
        rewrite Hh, bool_decide_eq_true_2 by reflexivity.
        rewrite completions_app, Ht. cbn. lia.
    + exact (IH trace Ht).
    + rewrite completions_query_then_onComplete, Ht.
      destruct (query b request); cbn; lia.
Qed.

(** X6: whatever the backend and the event source do, a call of
    [queryWithStreaming] whose [onComplete] returns normally invokes it
    at most once. *)
Theorem queryWithStreaming_completes_at_most_once
        (b : Backend) (request : QueryRequest) (h : Handlers) :
  (forall trace result, h trace (OnComplete result) = None) ->
  length (completions (queryWithStreaming b request h)) <= 1.
Proof.
  intros Hh. unfold queryWithStreaming.
  destruct (checkStreamingSupport b).
  - destruct (open_stream b request) as [events | error].
    + exact (dispatch_one_result b request h events Hh [] eq_refl).
    + rewrite completions_query_then_onComplete.
      destruct (query b request); cbn; lia.
  - unfold simulateStreaming.
    destruct (stream_logs_progress h (simulatedLogs b) []) as (added & E & Hp).
    destruct (stream_logs h (simulatedLogs b) []) as [trace [error |]];
      cbn in E; subst trace; cbn [calls].
    + rewrite (completions_progress _ Hp). cbn. lia.
    + destruct (query b request); cbn [calls];
        rewrite ?completions_app, (completions_progress _ Hp); cbn; lia.
Qed.

Lemma queryWithStreaming_completes_at_most_once_witness :
  length (completions
            (queryWithStreaming Samples.dropping_backend Samples.request Samples.quiet)) <= 1.
Proof.
  exact (queryWithStreaming_completes_at_most_once
           Samples.dropping_backend Samples.request Samples.quiet (fun _ _ => eq_refl)).
Defined.

(** When [onComplete] throws the source stays open, and a second
    result is delivered as well. *)
Example throwing_onComplete_keeps_source_open :
  completions
    (dispatch Samples.legacy_backend Samples.request
       (fun _ call => match call with OnComplete _ => Some "boom" | OnLog _ => None end)
       [ MessageEvent (Some Samples.result_message);
         MessageEvent (Some Samples.result_message) ] [])
  = [Response Samples.no_data; Response Samples.no_data].
Proof. reflexivity. Qed.

End OneResult.

(** ** [queryHistoryService]: what a save leaves alone *)

Section HistoryFrame.
Import QueryHistory.

Lemma saveQuery_other_key (ls : Storage) (item : QueryHistoryItem) (key : string) :
  history_key (session_id item) <> key ->
  cells (saveQuery ls item) !! key = cells ls !! key.
Proof.
  intros Hne. unfold saveQuery, setItem.
  destruct (getLocalHistory ls (session_id item)); [| reflexivity].
  destruct (accepts ls _ _ _); [| reflexivity].
  cbn [cells]. apply lookup_insert_ne. exact Hne.
Qed.

Lemma history_key_not_auth (sid : string) :
  history_key sid <> "auth_token" /\ history_key sid <> "user_email".
Proof. split; discriminate. Qed.

(** X7: saving only ever writes the history entries of the sessions saved
    to: every other entry of the storage, the sign-in token and email
    among them, stays as it was. *)
Theorem saveAll_writes_own_sessions_only
        (items : list QueryHistoryItem) (ls : Storage) (key : string) :
  (forall item, In item items -> history_key (session_id item) <> key) ->
  cells (saveAll ls items) !! key = cells ls !! key
  /\ cells (saveAll ls items) !! "auth_token" = cells ls !! "auth_token"
  /\ cells (saveAll ls items) !! "user_email" = cells ls !! "user_email".
Proof.
  assert (Hframe : forall items ls key,
             (forall item, In item items -> history_key (session_id item) <> key) ->
             cells (saveAll ls items) !! key = cells ls !! key).
  { clear. induction items as [|item rest IH]; intros ls key Hk; [reflexivity |].
    unfold saveAll in *. cbn [fold_left].
    rewrite IH by (intros i Hi; apply Hk; right; exact Hi).
    apply saveQuery_other_key, Hk. left. reflexivity. }
  intros Hk. split; [exact (Hframe items ls key Hk) |].
  split; apply Hframe; intros item _; apply history_key_not_auth.
Qed.

Lemma saveAll_writes_own_sessions_only_witness :
  cells (saveAll Samples.fresh_storage Samples.many_items) !! history_key "s2" = None.
Proof.
  destruct (saveAll_writes_own_sessions_only
              Samples.many_items Samples.fresh_storage (history_key "s2")) as (H & _).
  - intros item Hin Heq. apply history_key_inj in Heq.
    unfold Samples.many_items in Hin. apply in_map_iff in Hin as (n & <- & _).
    discriminate Heq.
  - rewrite H. reflexivity.
Defined.

(** X8: a stored text that parses to something other than an array blocks
    its session: every save fails inside and is swallowed, the entry
    stays as it is, and the history is never an array again. *)
Theorem non_array_history_is_stuck
        (items : list QueryHistoryItem) (ls : Storage) (sid : string) :
  getItem ls (history_key sid) = Some OtherJson ->
  getItem (saveAll ls items) (history_key sid) = Some OtherJson
  /\ getSessionHistory (saveAll ls items) sid = NotArray.
Proof.
  unfold getSessionHistory, getLocalHistory, getItem.
  revert ls. induction items as [|item rest IH]; intros ls Hls.
  - cbn [saveAll fold_left]. rewrite Hls. split; reflexivity.
  - unfold saveAll in *. cbn [fold_left]. apply IH.
    destruct (decide (history_key (session_id item) = history_key sid)) as [Heq | Hne].
    + unfold saveQuery, getLocalHistory, getItem. rewrite Heq, Hls. exact Hls.
    + rewrite saveQuery_other_key by exact Hne. exact Hls.
Qed.

Lemma non_array_history_is_stuck_witness :
  getSessionHistory
    (saveAll {| cells := {[ history_key "s1" := OtherJson ]};
                accepts := fun _ _ _ => true |}
             Samples.many_items) "s1" = NotArray.
Proof.
  exact (proj2 (non_array_history_is_stuck Samples.many_items
                  {| cells := {[ history_key "s1" := OtherJson ]};
                     accepts := fun _ _ _ => true |} "s1" eq_refl)).
Defined.

End HistoryFrame.

(** ** Signing in, coming back, signing out *)

Section SignIn.
Import App.

(** X9: a login accepted with a non-empty token, from a form with a
    non-empty email, when the storage takes both writes, stores token
    and email, signs the user in at once, and signs the user in again
    when the application is mounted anew over the same storage.  When
    the storage refuses one of the writes the form ends in its [catch]
    block: no callback is invoked, the sign-in state stays as it was and
    a non-empty error is shown. *)
Theorem login_is_restored_on_mount
        (server : Login.Server) (writes : Login.Writes) (st : Login.State)
        (detail : option string) (token : string)
        (ls : gmap string string) (a a' : Auth) :
  Login.fetch_auth server st = Login.Responds true (Login.Json detail token) ->
  truthy token = true ->
  truthy (Login.email st) = true ->
  (writes "auth_token" token = None ->
   writes "user_email" (Login.email st) = None ->
   apply_effects ls (Login.handleSubmit server writes st).2 !! "auth_token" = Some token
   /\ apply_effects ls (Login.handleSubmit server writes st).2 !! "user_email"
      = Some (Login.email st)
   /\ after_login a (Login.handleSubmit server writes st).2
      = {| isAuthenticated := true; authToken := token; userEmail := Login.email st;
           showLogin := false |}
   /\ restore_session (apply_effects ls (Login.handleSubmit server writes st).2) a'
      = after_login a (Login.handleSubmit server writes st).2)
  /\ (writes "auth_token" token <> None \/ writes "user_email" (Login.email st) <> None ->
      (forall t e, ~ In (Login.LoginSuccess t e) (Login.handleSubmit server writes st).2)
      /\ after_login a (Login.handleSubmit server writes st).2 = a
      /\ truthy (Login.error (Login.handleSubmit server writes st).1) = true
      /\ Login.loading (Login.handleSubmit server writes st).1 = false).
Proof.
  intros Hf Ht He. unfold Login.handleSubmit. rewrite Hf. split.
  - intros -> ->.
    cbn [snd]. unfold apply_effects, after_login. cbn [fold_left].
    unfold handleLoginSuccess, restore_session.
    rewrite lookup_insert_eq.
    rewrite lookup_insert_ne by discriminate. rewrite lookup_insert_eq.
    rewrite Ht, He. repeat split.
  - intros Hrefused.
    destruct (writes "auth_token" token) as [m1 |].
    + cbn. repeat split; [tauto | apply or_else_truthy; reflexivity].
    + destruct (writes "user_email" (Login.email st)) as [m2 |]; [| tauto].
      cbn. repeat split; [intros t e [H | []]; discriminate H |
                          apply or_else_truthy; reflexivity].
Qed.

Lemma login_is_restored_on_mount_witness :
  restore_session
    (apply_effects ∅
       (Login.handleSubmit Samples.accepting_server Samples.roomy Samples.login_form).2)
    initial_auth
  = {| isAuthenticated := true; authToken := "eyJ0b2tlbg";
       userEmail := "scientist@nasa.gov"; showLogin := false |}
  /\ after_login initial_auth
       (Login.handleSubmit Samples.accepting_server Samples.full Samples.login_form).2
     = initial_auth.
Proof.
  split.
  - destruct (proj1 (login_is_restored_on_mount
                       Samples.accepting_server Samples.roomy Samples.login_form None
                       "eyJ0b2tlbg" ∅ initial_auth initial_auth eq_refl eq_refl eq_refl)
                    eq_refl eq_refl) as (_ & _ & Ha & Hr).
    rewrite Hr. exact Ha.
  - destruct (proj2 (login_is_restored_on_mount
                       Samples.accepting_server Samples.full Samples.login_form None
                       "eyJ0b2tlbg" ∅ initial_auth initial_auth eq_refl eq_refl eq_refl)
                    ltac:(left; discriminate)) as (_ & Ha & _).
    exact Ha.
Defined.

(** X10: signing out removes the stored token and email and nothing else,
    shows the sign-in form, and a later mount over that storage signs
    nobody in. *)
Theorem logout_forgets_the_session (ls : gmap string string) (a a' : Auth) :
  (handleLogout ls a).1 !! "auth_token" = None
  /\ (handleLogout ls a).1 !! "user_email" = None
  /\ (forall key, key <> "auth_token" -> key <> "user_email" ->
                  (handleLogout ls a).1 !! key = ls !! key)
  /\ (handleLogout ls a).2
     = {| isAuthenticated := false; authToken := ""; userEmail := ""; showLogin := true |}
  /\ restore_session (handleLogout ls a).1 a' = a'.
Proof.
  unfold handleLogout. cbn [fst snd].
  assert (Ht : delete "user_email" (delete "auth_token" ls) !! "auth_token" = None).
  { rewrite lookup_delete_ne by discriminate. apply lookup_delete_eq. }
  split; [exact Ht |]. split; [apply lookup_delete_eq |]. split; [| split; [reflexivity |]].
  - intros key H1 H2. rewrite !lookup_delete_ne by congruence. reflexivity.
  - unfold restore_session. rewrite Ht. reflexivity.
Qed.

Lemma logout_forgets_the_session_witness :
  (handleLogout
     (<["auth_token" := "eyJ0b2tlbg"]> (<["theme" := "dark"]> ∅)) initial_auth).1
  !! "theme" = Some "dark".
Proof.
  destruct (logout_forgets_the_session
              (<["auth_token" := "eyJ0b2tlbg"]> (<["theme" := "dark"]> ∅))
              initial_auth initial_auth) as (_ & _ & Hother & _).
  rewrite (Hother "theme") by discriminate. reflexivity.
Defined.

End SignIn.

(** ** [App.handleSubmit]: what a submitted query does to the view *)

Section Submit.
Import App.

Lemma trimStart_all_whitespace (s : string) : all_whitespace s = true -> trimStart s = "".
Proof.
  induction s as [|c s IH]; [reflexivity |].
  cbn. intros [Hc Hs]%andb_prop. rewrite Hc. exact (IH Hs).
Qed.

Lemma trim_all_whitespace (s : string) : all_whitespace s = true -> trim s = "".
Proof. intros H. unfold trim. rewrite (trimStart_all_whitespace s H). reflexivity. Qed.

Lemma onmessage_keeps_history (s : Session) (data : option StreamData) :
  queryHistory (onmessage s data).1 = queryHistory s
  /\ exists added, agentLog (onmessage s data).1 = agentLog s ++ added.
Proof.
  unfold onmessage. destruct data as [d |]; [| split; [reflexivity | exists []; symmetry; apply app_nil_r]].
  destruct (String.eqb (type d) "log"); [split; [reflexivity | eexists; reflexivity] |].
  destruct (String.eqb (type d) "result");
    [split; [reflexivity | exists []; symmetry; apply app_nil_r] |].
  destruct (String.eqb (type d) "error"); [split; [reflexivity | eexists; reflexivity] |].
  destruct (String.eqb (type d) "done");
    split; try reflexivity; exists []; symmetry; apply app_nil_r.
Qed.

Lemma fallbackQuery_keeps_history (outcome : FallbackOutcome) (s : Session) :
  queryHistory (fallbackQuery outcome s) = queryHistory s
  /\ (exists added, agentLog (fallbackQuery outcome s) = agentLog s ++ added)
  /\ isStreaming (fallbackQuery outcome s) = false.
Proof.
  destruct outcome as [| [|] b e f]; cbn; repeat split;
    try (eexists; reflexivity); exists []; symmetry; apply app_nil_r.
Qed.

Lemma deliver_keeps_history (outcome : FallbackOutcome) (events : list SourceEvent) :
  forall s : Session,
    queryHistory (deliver outcome events s) = queryHistory s
    /\ exists added, agentLog (deliver outcome events s) = agentLog s ++ added.
Proof.
  induction events as [|e rest IH]; intros s.
  - split; [reflexivity | exists []; symmetry; apply app_nil_r].
  - destruct e as [data |]; cbn [deliver].
    + destruct (onmessage_keeps_history s data) as (Hq & added & Hl).
      destruct (onmessage s data) as [s' closed]. cbn [fst] in *.
      destruct closed; [split; [exact Hq | exists added; exact Hl] |].
      destruct (IH s') as (Hq' & added' & Hl').
      split; [congruence |]. exists (added ++ added'). rewrite Hl', Hl, app_assoc. reflexivity.
    + destruct (fallbackQuery_keeps_history outcome (onerror s)) as (Hq & (added & Hl) & _).
      split; [exact Hq |]. rewrite Hl. cbn. eexists. rewrite <- app_assoc. reflexivity.
Qed.

(** X11: a query of nothing but whitespace is not submitted: the view stays
    as it is.  Any other query is put at the front of the query history,
    once, whatever the event stream and the fallback then do. *)
Theorem handleSubmit_records_query
        (stream : string -> string -> Result (list SourceEvent))
        (outcome : FallbackOutcome) (query persona : string) (s : Session) :
  (all_whitespace query = true -> handleSubmit stream outcome query persona s = s)
  /\ (truthy (trim query) = true ->
      queryHistory (handleSubmit stream outcome query persona s)
      = query :: queryHistory s).
Proof.
  unfold handleSubmit. split.
  - intros Hw. rewrite (trim_all_whitespace query Hw). reflexivity.
  - intros Ht. rewrite Ht. cbn [negb].
    destruct (stream query persona) as [events | error].
    + rewrite (proj1 (deliver_keeps_history outcome events _)). reflexivity.
    + rewrite (proj1 (fallbackQuery_keeps_history outcome _)). reflexivity.
Qed.

Lemma handleSubmit_records_query_witness :
  handleSubmit (fun _ _ => Throw "no EventSource") FallbackFails "  " "Manager"
               Samples.app_session = Samples.app_session
  /\ queryHistory
       (handleSubmit (fun _ _ => Throw "no EventSource") FallbackFails
                     "bone loss" "Manager" Samples.app_session)
     = ["bone loss"].
Proof.
  split.
  - exact (proj1 (handleSubmit_records_query (fun _ _ => Throw "no EventSource")
                    FallbackFails "  " "Manager" Samples.app_session) eq_refl).
  - exact (proj2 (handleSubmit_records_query (fun _ _ => Throw "no EventSource")
                    FallbackFails "bone loss" "Manager" Samples.app_session) eq_refl).
Defined.

Lemma deliver_error_ends_streaming (outcome : FallbackOutcome) (events : list SourceEvent) :
  errors_before_done events = true ->
  forall s : Session,
  exists s', deliver outcome events s = fallbackQuery outcome (onerror s').
Proof.
  induction events as [|e rest IH]; intros He s; [discriminate |].
  destruct e as [[d |] |]; cbn [deliver].
  - cbn [errors_before_done] in He. apply andb_prop in He as [Hd He].
    apply negb_true_iff in Hd. unfold onmessage. rewrite Hd.
    destruct (String.eqb (type d) "log"); [apply (IH He) |].
    destruct (String.eqb (type d) "result"); [apply (IH He) |].
    destruct (String.eqb (type d) "error"); apply (IH He).
  - cbn [onmessage]. apply (IH He).
  - exists s. reflexivity.
Qed.

(** X12: when the event source cannot be opened, or reports an error before
    any "done" message, the view stops streaming and shows what the
    fallback request brought: its brief, evidence and follow-up
    questions (none when absent) when it succeeded. *)
Theorem handleSubmit_falls_back
        (stream : string -> string -> Result (list SourceEvent))
        (outcome : FallbackOutcome) (query persona : string) (s : Session) :
  truthy (trim query) = true ->
  match stream query persona with
  | Ok events => errors_before_done events = true
  | Throw _ => True
  end ->
  isStreaming (handleSubmit stream outcome query persona s) = false
  /\ (forall b e f,
        outcome = FallbackAnswers true b e f ->
        brief (handleSubmit stream outcome query persona s) = b
        /\ evidence (handleSubmit stream outcome query persona s) = e
        /\ followUpQuestions (handleSubmit stream outcome query persona s) = default [] f).
Proof.
  intros Ht Hs. unfold handleSubmit. rewrite Ht. cbn [negb].
  destruct (stream query persona) as [events | error].
  - destruct (deliver_error_ends_streaming outcome events Hs
                {| queryHistory := query :: queryHistory s; agentLog := [];
                   isStreaming := true; brief := None; evidence := [];
                   followUpQuestions := followUpQuestions s |}) as (s' & ->).
    split; [apply fallbackQuery_keeps_history |].
    intros b e f ->. repeat split.
  - split; [apply fallbackQuery_keeps_history |].
    intros b e f ->. repeat split.
Qed.

Lemma handleSubmit_falls_back_witness :
  isStreaming
    (handleSubmit (fun _ _ => Ok [Samples.app_message "log" "a"; ErrorEvent])
                  (FallbackAnswers true None [] None) "bone loss" "Manager"
                  Samples.app_session) = false.
Proof.
  exact (proj1 (handleSubmit_falls_back
                  (fun _ _ => Ok [Samples.app_message "log" "a"; ErrorEvent])
                  (FallbackAnswers true None [] None) "bone loss" "Manager"
                  Samples.app_session eq_refl eq_refl)).
Defined.

(** A stream that is closed by "done" without a result or an error
    leaves the view streaming. *)
Example done_without_result_keeps_streaming :
  isStreaming
    (handleSubmit (fun _ _ => Ok [Samples.app_message "log" "a";
                                  MessageEvent (Some Samples.app_done)])
                  FallbackFails "bone loss" "Manager" Samples.app_session) = true.
Proof. reflexivity. Qed.

End Submit.

(** ** [ChatBot.sendMessage] *)

Section Chat.
Import ChatBot.

(** X13: a message of nothing but whitespace is not sent.  Any other message
    adds exactly two entries to the conversation, the user's text as
    typed and then one reply of the assistant, which is never empty; the
    input is cleared and loading is off. *)
Theorem sendMessage_adds_one_exchange
        (server : string -> ChatOutcome) (sent received : nat) (st : State) :
  (all_whitespace (inputValue st) = true -> sendMessage server sent received st = st)
  /\ (truthy (trim (inputValue st)) = true ->
      exists reply,
        messages (sendMessage server sent received st)
        = messages st
          ++ [ {| type := FromUser; text := inputValue st; timestamp := sent |};
               {| type := FromBot; text := reply; timestamp := received |} ]
        /\ truthy reply = true
        /\ (forall response,
              server (inputValue st) = ChatAnswers (Some response) ->
              truthy response = true -> reply = response)
        /\ inputValue (sendMessage server sent received st) = ""
        /\ isLoading (sendMessage server sent received st) = false).
Proof.
  unfold sendMessage. split.
  - intros Hw. rewrite (trim_all_whitespace _ Hw). reflexivity.
  - intros Ht. rewrite Ht. cbn [negb messages inputValue isLoading].
    eexists. split; [rewrite <- app_assoc; reflexivity |].
    split; [| split; [| split; reflexivity]].
    + destruct (server (inputValue st)) as [| response]; [reflexivity |].
      unfold or_else. destruct (truthy (default "" response)) eqn:E; [exact E | reflexivity].
    + intros response -> Hr. cbn. unfold or_else. rewrite Hr. reflexivity.
Qed.

Lemma sendMessage_adds_one_exchange_witness :
  exists reply,
    messages (sendMessage Samples.mute_chat 1 2
                (handleQuickQuestion "Explain the contradictions" (initial "Hi!" 0)))
    = messages (initial "Hi!" 0)
      ++ [ {| type := FromUser; text := "Explain the contradictions"; timestamp := 1 |};
           {| type := FromBot; text := reply; timestamp := 2 |} ]
    /\ truthy reply = true.
Proof.
  destruct (proj2 (sendMessage_adds_one_exchange Samples.mute_chat 1 2
                     (handleQuickQuestion "Explain the contradictions" (initial "Hi!" 0)))
                  eq_refl) as (reply & Hm & Hr & _).
  exists reply. split; [exact Hm | exact Hr].
Defined.

Lemma converse_length (server : string -> ChatOutcome) (inputs : list string) :
  Forall (fun input => truthy (trim input) = true) inputs ->
  forall (now : nat) (st : State),
    length (messages (converse server now inputs st))
    = length (messages st) + 2 * length inputs.
Proof.
  induction 1 as [|input rest Hi _ IH]; intros now st; cbn [converse].
  - cbn. lia.
  - rewrite IH. unfold sendMessage. cbn [inputValue handleQuickQuestion].
    rewrite Hi. cbn [negb messages]. rewrite !length_app. cbn. lia.
Qed.

(** X14: in a conversation of sent messages every exchange adds two entries
    to the greeting, and the quick questions, offered at first, are gone
    after the first exchange and do not come back. *)
Theorem quick_questions_only_at_first
        (server : string -> ChatOutcome) (greeting : string) (now : nat)
        (inputs : list string) :
  Forall (fun input => truthy (trim input) = true) inputs ->
  length (messages (converse server (S now) inputs (initial greeting now)))
  = 1 + 2 * length inputs
  /\ showsQuickQuestions (converse server (S now) inputs (initial greeting now))
     = match inputs with [] => true | _ :: _ => false end.
Proof.
  intros Hi. pose proof (converse_length server inputs Hi (S now) (initial greeting now)) as Hl.
  cbn [initial messages length] in Hl. split; [exact Hl |].
  unfold showsQuickQuestions. rewrite Hl.
  destruct inputs; [reflexivity |]. apply Nat.leb_gt. cbn. lia.
Qed.

Lemma quick_questions_only_at_first_witness :
  showsQuickQuestions
    (converse Samples.mute_chat 1 ["What does the consensus mean?"] (initial "Hi!" 0))
  = false.
Proof.
  exact (proj2 (quick_questions_only_at_first Samples.mute_chat "Hi!" 0
                  ["What does the consensus mean?"]
                  ltac:(repeat constructor))).
Defined.

End Chat.

(** ** [PerformanceDashboard]: the metrics kept *)

Section Metrics.
Import PerformanceDashboard.

Lemma receive_from {Metric : Type} (events : list (option Metric)) :
  forall metrics : list Metric,
    length metrics <= 10 ->
    receive events metrics = firstn 10 (parsed_newest_first events ++ metrics).
Proof.
  induction events as [|e rest IH]; intros metrics Hl.
  - cbn. rewrite firstn_all2 by exact Hl. reflexivity.
  - unfold receive in *. cbn [fold_left parsed_newest_first].
    destruct e as [metric |]; cbn [onmessage].
    + rewrite IH by (rewrite length_firstn; lia).
      rewrite <- app_assoc. cbn [app].
      rewrite !firstn_app, firstn_firstn. do 2 f_equal. lia.
    + apply IH, Hl.
Qed.

(** X15: whatever arrives on the metrics stream, the dashboard shows the
    ten most recent metrics that parsed, newest first, and never more
    than ten. *)
Theorem metrics_are_the_last_ten {Metric : Type} (events : list (option Metric)) :
  receive events [] = firstn 10 (parsed_newest_first events)
  /\ length (receive events ([] : list Metric)) <= 10.
Proof.
  rewrite (receive_from events []) by (cbn; lia). rewrite app_nil_r.
  split; [reflexivity |]. rewrite length_firstn. lia.
Qed.

End Metrics.

(** ** [CategoryDashboard]: the search filter *)

Section Categories.
Import CategoryDashboard.

Lemma startsWith_trans (s q w : string) :
  startsWith s q = true -> startsWith q w = true -> startsWith s w = true.
Proof.
  revert s q. induction w as [|x w IH]; intros s q Hsq Hqw.
  - destruct s; reflexivity.
  - destruct q as [|y q]; [discriminate |]. destruct s as [|z s]; [discriminate |].
    cbn in *. apply andb_prop in Hsq as [Hyz Hsq]. apply andb_prop in Hqw as [Hxy Hqw].
    apply Ascii.eqb_eq in Hyz. apply Ascii.eqb_eq in Hxy. subst.
    rewrite Ascii.eqb_refl. exact (IH s q Hsq Hqw).
Qed.

Lemma includes_prefix (s q w : string) :
  includes s q = true -> startsWith q w = true -> includes s w = true.
Proof.
  intros Hsq Hqw. induction s as [|c s IH]; rewrite includes_unfold in Hsq |- *.
  - rewrite orb_false_r in *. exact (startsWith_trans _ _ _ Hsq Hqw).
  - apply orb_prop in Hsq as [H | H].
    + rewrite (startsWith_trans _ _ _ H Hqw). reflexivity.
    + rewrite (IH H). apply orb_true_r.
Qed.

Lemma startsWith_refl (s : string) : startsWith s s = true.
Proof. induction s as [|c s IH]; [reflexivity |]. cbn. rewrite Ascii.eqb_refl. exact IH. Qed.

(** The first word of a string is a prefix of it. *)
Lemma first_word_prefix (s : string) :
  exists word words, split_space s = word :: words /\ startsWith s word = true.
Proof.
  induction s as [|c s IH].
  - exists "", []. split; reflexivity.
  - destruct IH as (word & words & E & Hp). cbn [split_space].
    destruct (Ascii.eqb c space).
    + exists "", (split_space s). split; reflexivity.
    + rewrite E. exists (String c word), words. split; [reflexivity |].
      cbn. rewrite Ascii.eqb_refl. exact Hp.
Qed.

Lemma includes_empty (s : string) : includes s "" = true.
Proof. destruct s; reflexivity. Qed.

Lemma toLowerCase_app (a b : string) :
  toLowerCase (a +:+ b) = toLowerCase a +:+ toLowerCase b.
Proof.
  induction a as [|c a IH]; [reflexivity |].
  rewrite string_app_cons. cbn [toLowerCase]. rewrite IH. reflexivity.
Qed.

Lemma split_space_trailing (s : string) :
  split_space (s +:+ " ") = split_space s ++ [""].
Proof.
  induction s as [|c s IH]; [reflexivity |].
  rewrite string_app_cons. cbn [split_space]. rewrite IH.
  destruct (Ascii.eqb c space); [reflexivity |].
  destruct (split_space s) as [|w ws] eqn:E; [destruct (split_space_nonempty s E) |].
  reflexivity.
Qed.

Lemma matches_by_word (q : string) (cat : Category) :
  matches q cat
  = existsb (fun word => includes (toLowerCase (name cat)) word)
            (split_space (toLowerCase q)).
Proof.
  unfold matches.
  destruct (includes (toLowerCase (name cat)) (toLowerCase q)) eqn:E; [| reflexivity].
  destruct (first_word_prefix (toLowerCase q)) as (word & words & Hs & Hp).
  rewrite Hs. cbn [existsb]. rewrite (includes_prefix _ _ _ E Hp). reflexivity.
Qed.

(** X16: the category filter keeps a category exactly when some word of the
    lower-cased query occurs in its lower-cased name (the test on the
    whole query adds nothing); without a query, or with an empty one, it
    keeps them all; and so it does when the query ends with a space,
    since the empty word occurs in every name. *)
Theorem category_filter_by_word (categories : list Category) :
  (forall q,
      q <> "" ->
      filteredCategories (Some q) categories
      = List.filter
          (fun cat => existsb (fun word => includes (toLowerCase (name cat)) word)
                              (split_space (toLowerCase q)))
          categories)
  /\ filteredCategories None categories = categories
  /\ filteredCategories (Some "") categories = categories
  /\ (forall q, filteredCategories (Some (q +:+ " ")) categories = categories).
Proof.
  split; [| split; [reflexivity | split; [reflexivity |]]].
  - intros q Hq. unfold filteredCategories.
    destruct q as [|c q]; [congruence |]. cbn [truthy].
    apply filter_ext. intros cat. apply matches_by_word.
  - intros q. unfold filteredCategories.
    assert (Ht : truthy (q +:+ " ") = true) by (destruct q; reflexivity).
    rewrite Ht. induction categories as [|cat rest IH]; [reflexivity |].
    cbn [List.filter]. rewrite matches_by_word, toLowerCase_app, split_space_trailing.
    rewrite existsb_app. cbn [existsb]. rewrite includes_empty.
    cbn [orb]. rewrite orb_true_r. f_equal. exact IH.
Qed.

Lemma category_filter_by_word_witness :
  filteredCategories (Some "plant") Samples.categories
  = [ {| name := "Plant Biology"; count := 120; icon := "P" |} ]
  /\ filteredCategories (Some "plant ") Samples.categories = Samples.categories.
Proof.
  destruct (category_filter_by_word Samples.categories) as (Hword & _ & _ & Hspace).
  split.
  - rewrite (Hword "plant" ltac:(discriminate)). reflexivity.
  - exact (Hspace "plant").
Defined.

End Categories.

(** ** The handlers on a stream of the documented shape *)

Section ShapedStream.

Lemma App_onmessage_log (s : App.Session) (d : App.StreamData) :
  App.type d = "log" ->
  App.onmessage s (Some d) = (App.add_log s (App.message d) (App.isStreaming s), false).
Proof. intros Hd. unfold App.onmessage. rewrite Hd. reflexivity. Qed.

Lemma client_onmessage_log (h : EnhancedAPIClient.Handlers)
      (trace : list EnhancedAPIClient.Call) (d : EnhancedAPIClient.StreamData) :
  EnhancedAPIClient.type d = "log" ->
  EnhancedAPIClient.onmessage h trace (Some d)
  = (trace ++ [EnhancedAPIClient.OnLog (EnhancedAPIClient.content d)], false).
Proof. intros Hd. unfold EnhancedAPIClient.onmessage. rewrite Hd. reflexivity. Qed.

Lemma deliver_logs (outcome : App.FallbackOutcome) (logs : list App.StreamData)
      (rest : list App.SourceEvent) :
  Forall (fun d => App.type d = "log") logs ->
  forall s : App.Session,
  exists s',
    App.deliver outcome (map (fun d => App.MessageEvent (Some d)) logs ++ rest) s
    = App.deliver outcome rest s'
    /\ App.agentLog s' = App.agentLog s ++ map App.message logs
    /\ App.isStreaming s' = App.isStreaming s
    /\ App.brief s' = App.brief s
    /\ App.evidence s' = App.evidence s
    /\ App.followUpQuestions s' = App.followUpQuestions s
    /\ App.queryHistory s' = App.queryHistory s.
Proof.
  induction 1 as [|d logs Hd _ IH]; intros s.
  - exists s. rewrite app_nil_r. repeat split.
  - cbn [map app App.deliver]. rewrite (App_onmessage_log s d Hd).
    destruct (IH (App.add_log s (App.message d) (App.isStreaming s)))
      as (s' & E & Hl & Hs & Hb & He & Hf & Hq).
    exists s'. rewrite E, Hl. cbn [App.add_log App.agentLog] in *.
    rewrite <- app_assoc. repeat split; assumption.
Qed.

(** X18: on a stream of the documented shape (any number of "log"
    messages, one "result" or "error", then "done") the main view shows
    every log line in order, ends with streaming switched off, and
    consumes nothing after "done"; after a "result" it shows that
    message's brief, evidence and follow-up questions (none when
    absent), after an "error" it adds the error line and leaves the
    brief as it was. *)
Theorem shaped_stream_in_main_view
        (outcome : App.FallbackOutcome) (logs : list App.StreamData)
        (terminal done : App.StreamData) (after : list App.SourceEvent)
        (s : App.Session) :
  Forall (fun d => App.type d = "log") logs ->
  App.type done = "done" ->
  (App.type terminal = "result" ->
   App.deliver outcome
     (map (fun d => App.MessageEvent (Some d)) logs
      ++ [App.MessageEvent (Some terminal); App.MessageEvent (Some done)] ++ after) s
   = {| App.queryHistory := App.queryHistory s;
        App.agentLog := App.agentLog s ++ map App.message logs;
        App.isStreaming := false;
        App.brief := App.data_brief terminal;
        App.evidence := App.data_evidence terminal;
        App.followUpQuestions := default [] (App.follow_up_questions terminal) |})
  /\ (App.type terminal = "error" ->
      App.deliver outcome
        (map (fun d => App.MessageEvent (Some d)) logs
         ++ [App.MessageEvent (Some terminal); App.MessageEvent (Some done)] ++ after) s
      = {| App.queryHistory := App.queryHistory s;
           App.agentLog := (App.agentLog s ++ map App.message logs)
                           ++ ["[ERROR] " +:+ App.message terminal];
           App.isStreaming := false;
           App.brief := App.brief s;
           App.evidence := App.evidence s;
           App.followUpQuestions := App.followUpQuestions s |}).
Proof.
  intros Hlogs Hdone.
  destruct (deliver_logs outcome logs
              ([App.MessageEvent (Some terminal); App.MessageEvent (Some done)] ++ after)
              Hlogs s) as (s' & E & Hl & Hs & Hb & He & Hf & Hq).
  rewrite E. cbn [app App.deliver App.onmessage].
  split; intros Ht; rewrite Ht, Hdone; cbn.
  - unfold App.set_result. rewrite Hq, Hl. reflexivity.
  - unfold App.add_log. rewrite Hq, Hl, Hb, He, Hf. reflexivity.
Qed.

Lemma shaped_stream_in_main_view_witness :
  App.deliver App.FallbackFails
    (map (fun d => App.MessageEvent (Some d))
         [ {| App.type := "log"; App.message := "Retrieving"; App.data_brief := None;
              App.data_evidence := []; App.follow_up_questions := None |} ]
     ++ [ App.MessageEvent
            (Some {| App.type := "error"; App.message := "Timeout";
                     App.data_brief := None; App.data_evidence := [];
                     App.follow_up_questions := None |});
          App.MessageEvent (Some Samples.app_done) ]
     ++ [Samples.app_message "log" "late"])
    Samples.app_session
  = {| App.queryHistory := []; App.agentLog := ["Retrieving"; "[ERROR] Timeout"];
       App.isStreaming := false; App.brief := None; App.evidence := [];
       App.followUpQuestions := [] |}.
Proof.
  exact (proj2 (shaped_stream_in_main_view App.FallbackFails
                  [ {| App.type := "log"; App.message := "Retrieving";
                       App.data_brief := None; App.data_evidence := [];
                       App.follow_up_questions := None |} ]
                  {| App.type := "error"; App.message := "Timeout";
                     App.data_brief := None; App.data_evidence := [];
                     App.follow_up_questions := None |}
                  Samples.app_done [Samples.app_message "log" "late"]
                  Samples.app_session
                  ltac:(repeat constructor) eq_refl) eq_refl).
Defined.

Lemma dispatch_logs (b : EnhancedAPIClient.Backend) (request : EnhancedAPIClient.QueryRequest)
      (h : EnhancedAPIClient.Handlers) (logs : list EnhancedAPIClient.StreamData)
      (rest : list EnhancedAPIClient.SourceEvent) :
  Forall (fun d => EnhancedAPIClient.type d = "log") logs ->
  forall trace,
    EnhancedAPIClient.dispatch b request h
      (map (fun d => EnhancedAPIClient.MessageEvent (Some d)) logs ++ rest) trace
    = EnhancedAPIClient.dispatch b request h rest
        (trace ++ map (fun d => EnhancedAPIClient.OnLog (EnhancedAPIClient.content d)) logs).
Proof.
  induction 1 as [|d logs Hd _ IH]; intros trace.
  - cbn. rewrite app_nil_r. reflexivity.
  - cbn [map app EnhancedAPIClient.dispatch].
    rewrite (client_onmessage_log h trace d Hd).
    rewrite IH, <- app_assoc. reflexivity.
Qed.

(** X19: on a stream that ends with an "error" message and "done", the
    API client's [queryWithStreaming] handler forwards the logs and then
    does nothing: it has no case for either type, so [onComplete] is
    never invoked and the blocking query is not used. *)
Theorem error_stream_never_completes
        (b : EnhancedAPIClient.Backend) (request : EnhancedAPIClient.QueryRequest)
        (h : EnhancedAPIClient.Handlers) (logs : list EnhancedAPIClient.StreamData)
        (terminal done : EnhancedAPIClient.StreamData) :
  Forall (fun d => EnhancedAPIClient.type d = "log") logs ->
  EnhancedAPIClient.type terminal = "error" ->
  EnhancedAPIClient.type done = "done" ->
  EnhancedAPIClient.dispatch b request h
    (map (fun d => EnhancedAPIClient.MessageEvent (Some d)) logs
     ++ [ EnhancedAPIClient.MessageEvent (Some terminal);
          EnhancedAPIClient.MessageEvent (Some done) ]) []
  = map (fun d => EnhancedAPIClient.OnLog (EnhancedAPIClient.content d)) logs
  /\ EnhancedAPIClient.completions
       (EnhancedAPIClient.dispatch b request h
          (map (fun d => EnhancedAPIClient.MessageEvent (Some d)) logs
           ++ [ EnhancedAPIClient.MessageEvent (Some terminal);
                EnhancedAPIClient.MessageEvent (Some done) ]) []) = [].
Proof.
  intros Hlogs Ht Hd.
  assert (E : EnhancedAPIClient.dispatch b request h
                (map (fun d => EnhancedAPIClient.MessageEvent (Some d)) logs
                 ++ [ EnhancedAPIClient.MessageEvent (Some terminal);
                      EnhancedAPIClient.MessageEvent (Some done) ]) []
              = map (fun d => EnhancedAPIClient.OnLog (EnhancedAPIClient.content d)) logs).
  { rewrite (dispatch_logs b request h logs _ Hlogs).
    cbn [app EnhancedAPIClient.dispatch EnhancedAPIClient.onmessage].
    rewrite Ht, Hd. reflexivity. }
  split; [exact E |]. rewrite E.
  clear. induction logs as [|d logs IH]; [reflexivity | exact IH].
Qed.

Lemma error_stream_never_completes_witness :
  EnhancedAPIClient.dispatch Samples.legacy_backend Samples.request Samples.quiet
    (map (fun d => EnhancedAPIClient.MessageEvent (Some d))
         [ {| EnhancedAPIClient.type := "log";
              EnhancedAPIClient.content := EnhancedAPIClient.Text "Retrieving" |} ]
     ++ [ EnhancedAPIClient.MessageEvent
            (Some {| EnhancedAPIClient.type := "error";
                     EnhancedAPIClient.content := EnhancedAPIClient.Text "Timeout" |});
          EnhancedAPIClient.MessageEvent (Some Samples.done_message) ]) []
  = [EnhancedAPIClient.OnLog (EnhancedAPIClient.Text "Retrieving")].
Proof.
  exact (proj1 (error_stream_never_completes
                  Samples.legacy_backend Samples.request Samples.quiet
                  [ {| EnhancedAPIClient.type := "log";
                       EnhancedAPIClient.content := EnhancedAPIClient.Text "Retrieving" |} ]
                  {| EnhancedAPIClient.type := "error";
                     EnhancedAPIClient.content := EnhancedAPIClient.Text "Timeout" |}
                  Samples.done_message
                  ltac:(repeat constructor) eq_refl eq_refl)).
Defined.

End ShapedStream.
